(** * certgen/tls/certificate.go: a shallow embedding and its properties

    The Go package [tls] of certificate-factory turns a declarative
    certificate request into a signed X.509 certificate and a private
    key.  This file embeds [certificate.go] function by function and
    proves the properties of the specification against the embedding.

    Conventions of the embedding:
    - a Go [string] is a [string] (a sequence of 8-bit characters), a
      [[]byte] is a [list byte], a [*big.Int] is a [Z], a [time.Time] is
      a [Z];
    - a Go call ends in one of three ways, kept apart in [outcome]: it
      returns a value, it returns a non-nil [error], or it panics;
    - [crypto/rand.Reader] is a tape of bytes that is consumed from the
      left, threaded through every function that reads from it;
    - functions of the Go standard library whose body is cryptography or
      a parser (key generation, DER encoding and decoding, signing,
      [net.ParseIP], [url.Parse]) are the fields of the class [Library];
      [encoding/hex] and [crypto/rand.Int] are short and are written out. *)

From Stdlib Require Import List String Ascii ZArith NArith Lia Bool Strings.Byte.
From Stdlib Require Import DecimalString DecimalZ DecimalPos.
Import ListNotations.

Local Open Scope string_scope.
Local Open Scope Z_scope.

Set Implicit Arguments.

(** ** Go values *)

Definition bytes := list byte.

(** The errors that can flow through [certificate.go], by origin. *)
Inductive error : Type :=
| ErrLength                          (* encoding/hex: odd length hex string *)
| InvalidByteError (c : ascii)       (* encoding/hex: invalid byte *)
| Errorf (msg : string)              (* fmt.Errorf *)
| LibraryError (pkg msg : string).   (* an error value made by a library *)

(** How a Go call ends. *)
Inductive outcome (A : Type) : Type :=
| Ok (a : A)
| Err (e : error)
| Panic (e : error).

Arguments Ok {A} a.
Arguments Err {A} e.
Arguments Panic {A} e.

(** A library function of signature [(A, error)]. *)
Definition result (A : Type) : Type := (A + error)%type.

Definition returns {A} (o : outcome A) : bool :=
  match o with Ok _ => true | _ => false end.

Definition panics {A} (o : outcome A) : bool :=
  match o with Panic _ => true | _ => false end.

Definition fails {A} (o : outcome A) : bool :=
  match o with Err _ => true | _ => false end.

(** ** encoding/hex *)

Module hex.

Definition hextable : string := "0123456789abcdef".

Definition digit (n : N) : ascii :=
  match String.get (N.to_nat n) hextable with
  | Some c => c
  | None => "0"%char
  end.

(** [EncodeToString]: two lower-case digits per byte, high nibble first. *)
Fixpoint EncodeToString (src : bytes) : string :=
  match src with
  | [] => EmptyString
  | v :: rest =>
      String (digit (N.shiftr (Byte.to_N v) 4))
        (String (digit (N.land (Byte.to_N v) 15)) (EncodeToString rest))
  end.

(** [reverseHexTable]: the value of a hex digit, 255 for any other byte. *)
Definition reverseHexTable (c : ascii) : N :=
  let n := N_of_ascii c in
  if (48 <=? n)%N && (n <=? 57)%N then (n - 48)%N
  else if (97 <=? n)%N && (n <=? 102)%N then (n - 87)%N
  else if (65 <=? n)%N && (n <=? 70)%N then (n - 55)%N
  else 255%N.

Definition byte_of (n : N) : byte :=
  match Byte.of_N n with Some b => b | None => x00 end.

(** [Decode]: the bytes decoded before the first problem, and the problem.
    An invalid character is reported before a bad length. *)
Fixpoint Decode (src : string) : bytes * option error :=
  match src with
  | EmptyString => ([], None)
  | String p EmptyString =>
      if (15 <? reverseHexTable p)%N
      then ([], Some (InvalidByteError p))
      else ([], Some ErrLength)
  | String p (String q rest) =>
      let a := reverseHexTable p in
      let b := reverseHexTable q in
      if (15 <? a)%N then ([], Some (InvalidByteError p))
      else if (15 <? b)%N then ([], Some (InvalidByteError q))
      else
        let (dst, err) := Decode rest in
        (byte_of (N.lor (N.shiftl a 4) b) :: dst, err)
  end.

Definition DecodeString (s : string) : bytes * option error := Decode s.

End hex.

(** ** crypto/x509/pkix and crypto/x509: the data the code touches *)

Module pkix.

Record Name : Type := {
  Country : list string;
  Organization : list string;
  OrganizationalUnit : list string;
  Locality : list string;
  Province : list string;
  StreetAddress : list string;
  PostalCode : list string;
  SerialNumber : string;
  CommonName : string;
  Names : list (list Z * string);
  ExtraNames : list (list Z * string)
}.

(** The zero value of the struct. *)
Definition zero : Name :=
  {| Country := []; Organization := []; OrganizationalUnit := [];
     Locality := []; Province := []; StreetAddress := []; PostalCode := [];
     SerialNumber := ""; CommonName := ""; Names := []; ExtraNames := [] |}.

End pkix.

Module x509.

(** [x509.KeyUsage] is a bit set. *)
Definition KeyUsage := Z.
Definition KeyUsageDigitalSignature : KeyUsage := Z.shiftl 1 0.
Definition KeyUsageContentCommitment : KeyUsage := Z.shiftl 1 1.
Definition KeyUsageKeyEncipherment : KeyUsage := Z.shiftl 1 2.
Definition KeyUsageDataEncipherment : KeyUsage := Z.shiftl 1 3.
Definition KeyUsageKeyAgreement : KeyUsage := Z.shiftl 1 4.
Definition KeyUsageCertSign : KeyUsage := Z.shiftl 1 5.
Definition KeyUsageCRLSign : KeyUsage := Z.shiftl 1 6.
Definition KeyUsageEncipherOnly : KeyUsage := Z.shiftl 1 7.
Definition KeyUsageDecipherOnly : KeyUsage := Z.shiftl 1 8.

Inductive ExtKeyUsage : Type :=
| ExtKeyUsageAny
| ExtKeyUsageServerAuth
| ExtKeyUsageClientAuth
| ExtKeyUsageCodeSigning
| ExtKeyUsageEmailProtection
| ExtKeyUsageIPSECEndSystem
| ExtKeyUsageIPSECTunnel
| ExtKeyUsageIPSECUser
| ExtKeyUsageTimeStamping
| ExtKeyUsageOCSPSigning
| ExtKeyUsageMicrosoftServerGatedCrypto
| ExtKeyUsageNetscapeServerGatedCrypto
| ExtKeyUsageMicrosoftCommercialCodeSigning
| ExtKeyUsageMicrosoftKernelCodeSigning.

Definition ExtKeyUsage_eqb (a b : ExtKeyUsage) : bool :=
  match a, b with
  | ExtKeyUsageAny, ExtKeyUsageAny
  | ExtKeyUsageServerAuth, ExtKeyUsageServerAuth
  | ExtKeyUsageClientAuth, ExtKeyUsageClientAuth
  | ExtKeyUsageCodeSigning, ExtKeyUsageCodeSigning
  | ExtKeyUsageEmailProtection, ExtKeyUsageEmailProtection
  | ExtKeyUsageIPSECEndSystem, ExtKeyUsageIPSECEndSystem
  | ExtKeyUsageIPSECTunnel, ExtKeyUsageIPSECTunnel
  | ExtKeyUsageIPSECUser, ExtKeyUsageIPSECUser
  | ExtKeyUsageTimeStamping, ExtKeyUsageTimeStamping
  | ExtKeyUsageOCSPSigning, ExtKeyUsageOCSPSigning
  | ExtKeyUsageMicrosoftServerGatedCrypto, ExtKeyUsageMicrosoftServerGatedCrypto
  | ExtKeyUsageNetscapeServerGatedCrypto, ExtKeyUsageNetscapeServerGatedCrypto
  | ExtKeyUsageMicrosoftCommercialCodeSigning, ExtKeyUsageMicrosoftCommercialCodeSigning
  | ExtKeyUsageMicrosoftKernelCodeSigning, ExtKeyUsageMicrosoftKernelCodeSigning => true
  | _, _ => false
  end.

(** [x509.Certificate], used both as the template handed to
    [CreateCertificate] and as the result of [ParseCertificate].  The
    fields are those [certificate.go] reads or writes, and [IsCA], which
    [BasicConstraintsValid] gives its meaning; every other field of the Go
    struct keeps its zero value throughout the code. [net.IP] is a byte
    slice; [URL] is the library's [*url.URL]. *)
Record Certificate (URL : Type) : Type := {
  SerialNumber : Z;
  Issuer : pkix.Name;
  Subject : pkix.Name;
  NotBefore : Z;
  NotAfter : Z;
  KeyUsage_ : KeyUsage;
  ExtKeyUsage_ : list ExtKeyUsage;
  BasicConstraintsValid : bool;
  IsCA : bool;
  SubjectKeyId : bytes;
  OCSPServer : list string;
  DNSNames : list string;
  EmailAddresses : list string;
  IPAddresses : list bytes;
  URIs : list URL;
  CRLDistributionPoints : list string
}.

End x509.

(** ** Package tls: the data model of certificate.go *)

(** [Name] describes a X.509 name object. *)
Module Name.

Record t : Type := {
  Organization : string;
  City : string;
  Province : string;
  Country : string;
  CommonName : string
}.

(** [func (n Name) pkix() pkix.Name]: every field, empty or not, becomes
    a one-element attribute; the common name is copied. *)
Definition pkix (n : t) : pkix.Name :=
  {| pkix.Country := [Country n];
     pkix.Organization := [Organization n];
     pkix.OrganizationalUnit := [];
     pkix.Locality := [City n];
     pkix.Province := [Province n];
     pkix.StreetAddress := [];
     pkix.PostalCode := [];
     pkix.SerialNumber := "";
     pkix.CommonName := CommonName n;
     pkix.Names := [];
     pkix.ExtraNames := [] |}.

End Name.

(** [p[0]] guarded by [len(p) > 0]; the field keeps its zero value, the
    empty string, otherwise. *)
Definition firstOrEmpty (p : list string) : string :=
  match p with
  | [] => ""
  | s :: _ => s
  end.

(** [func nameFromPkix(p pkix.Name) Name] *)
Definition nameFromPkix (p : pkix.Name) : Name.t :=
  {| Name.CommonName := pkix.CommonName p;
     Name.Organization := firstOrEmpty (pkix.Organization p);
     Name.City := firstOrEmpty (pkix.Locality p);
     Name.Province := firstOrEmpty (pkix.Province p);
     Name.Country := firstOrEmpty (pkix.Country p) |}.

(** [time.Time] is a count of nanoseconds; [time.Duration] is a signed
    64-bit count of nanoseconds, and a difference of times that does not
    fit is replaced by the nearest bound. *)
Module time.

Definition minDuration : Z := - 2 ^ 63.
Definition maxDuration : Z := 2 ^ 63 - 1.

(** [func (t Time) Sub(u Time) Duration] *)
Definition Sub (t u : Z) : Z :=
  let d := t - u in
  if d <? minDuration then minDuration
  else if maxDuration <? d then maxDuration
  else d.

(** [func Since(t Time) Duration], with the reading of the clock as an
    argument. *)
Definition Since (now t : Z) : Z := Sub now t.

End time.

(** [DateRange] describes a date range. *)
Module DateRange.

Record t : Type := {
  NotBefore : Z;
  NotAfter : Z
}.

(** [func (d DateRange) IsValid() bool].  The body calls [time.Since]
    twice, and each call reads the clock: [now1] is the reading of the
    call on [NotAfter], the left operand, [now2] the reading of the call
    on [NotBefore], which runs after it. *)
Definition IsValid (now1 now2 : Z) (d : t) : bool :=
  (time.Since now1 (NotAfter d) <? 0) && (time.Since now2 (NotBefore d) >? 0).

End DateRange.

Definition AlternateNameTypeDNS : string := "dns".
Definition AlternateNameTypeEmail : string := "email".
Definition AlternateNameTypeIP : string := "ip".
Definition AlternateNameTypeURI : string := "uri".

(** [AlternateName] describes an alternate name; [Type_] is the field
    [Type] of the Go struct. *)
Module AlternateName.

Record t : Type := {
  Type_ : string;
  Value : string
}.

End AlternateName.

(** [KeyUsage] describes usage properties for an X.509 key. *)
Module KeyUsage.

Record t : Type := {
  (* Basic *)
  DigitalSignature : bool;
  ContentCommitment : bool;
  KeyEncipherment : bool;
  DataEncipherment : bool;
  KeyAgreement : bool;
  CertSign : bool;
  CRLSign : bool;
  EncipherOnly : bool;
  DecipherOnly : bool;
  (* Extended *)
  ServerAuth : bool;
  ClientAuth : bool;
  CodeSigning : bool;
  EmailProtection : bool;
  TimeStamping : bool;
  OCSPSigning : bool
}.

(** [if flag { usage = usage | bit }] *)
Definition orIf (flag : bool) (bit usage : x509.KeyUsage) : x509.KeyUsage :=
  if flag then Z.lor usage bit else usage.

(** [func (u KeyUsage) usage() x509.KeyUsage] *)
Definition usage (u : t) : x509.KeyUsage :=
  let usage := 0 in
  let usage := orIf (DigitalSignature u) x509.KeyUsageDigitalSignature usage in
  let usage := orIf (ContentCommitment u) x509.KeyUsageContentCommitment usage in
  let usage := orIf (KeyEncipherment u) x509.KeyUsageKeyEncipherment usage in
  let usage := orIf (DataEncipherment u) x509.KeyUsageDataEncipherment usage in
  let usage := orIf (KeyAgreement u) x509.KeyUsageKeyAgreement usage in
  let usage := orIf (CertSign u) x509.KeyUsageCertSign usage in
  let usage := orIf (CRLSign u) x509.KeyUsageCRLSign usage in
  let usage := orIf (EncipherOnly u) x509.KeyUsageEncipherOnly usage in
  let usage := orIf (DecipherOnly u) x509.KeyUsageDecipherOnly usage in
  usage.

(** [if flag { usage = append(usage, e) }] *)
Definition appendIf (flag : bool) (e : x509.ExtKeyUsage)
    (usage : list x509.ExtKeyUsage) : list x509.ExtKeyUsage :=
  if flag then usage ++ [e] else usage.

(** [func (u KeyUsage) extendedUsage() []x509.ExtKeyUsage] *)
Definition extendedUsage (u : t) : list x509.ExtKeyUsage :=
  let usage := [] in
  let usage := appendIf (ServerAuth u) x509.ExtKeyUsageServerAuth usage in
  let usage := appendIf (ClientAuth u) x509.ExtKeyUsageClientAuth usage in
  let usage := appendIf (CodeSigning u) x509.ExtKeyUsageCodeSigning usage in
  let usage := appendIf (EmailProtection u) x509.ExtKeyUsageEmailProtection usage in
  let usage := appendIf (TimeStamping u) x509.ExtKeyUsageTimeStamping usage in
  let usage := appendIf (OCSPSigning u) x509.ExtKeyUsageOCSPSigning usage in
  usage.

End KeyUsage.

(** [StatusProviders] describes providers for certificate status; a nil
    [*string] is [None]. *)
Module StatusProviders.

Record t : Type := {
  CRL : option string;
  OCSP : option string
}.

End StatusProviders.

(** [CertificateRequest] describes a certificate request. *)
Module CertificateRequest.

Record t : Type := {
  Subject : Name.t;
  Validity : DateRange.t;
  AlternateNames : list AlternateName.t;
  Usage : KeyUsage.t;
  IsCertificateAuthority : bool;
  StatusProviders : StatusProviders.t
}.

End CertificateRequest.

(** ** The random source and the monad of the code *)

(** [crypto/rand.Reader]: the bytes it will deliver, in order. *)
Definition Reader := bytes.

(** A computation that reads from [rand.Reader]. *)
Definition M (A : Type) : Type := Reader -> outcome A * Reader.

Definition ret {A} (a : A) : M A := fun r => (Ok a, r).

Definition bind {A B} (m : M A) (k : A -> M B) : M B :=
  fun r =>
    match m r with
    | (Ok a, r') => k a r'
    | (Err e, r') => (Err e, r')
    | (Panic e, r') => (Panic e, r')
    end.

(** A call that does not read the random source. *)
Definition pure {A} (o : outcome A) : M A := fun r => (o, r).

(** [v, err := f(...); if err != nil { return nil, err }] *)
Definition try {A} (x : result A) : outcome A :=
  match x with
  | inl a => Ok a
  | inr e => Err e
  end.

(** [v, err := f(...); if err != nil { panic(err) }] *)
Definition must {A} (x : result A) : outcome A :=
  match x with
  | inl a => Ok a
  | inr e => Panic e
  end.

Declare Scope go_scope.
Delimit Scope go_scope with go.
Notation "x <- m ;; k" := (bind m (fun x => k))
  (at level 61, m at next level, right associativity) : go_scope.

(** [bind] on outcomes alone, for the parts of the code that are pure. *)
Definition obind {A B} (o : outcome A) (k : A -> outcome B) : outcome B :=
  match o with
  | Ok a => k a
  | Err e => Err e
  | Panic e => Panic e
  end.

(** ** io.ReadFull and crypto/rand.Int on the tape *)

Module io.

Definition ErrUnexpectedEOF : error := LibraryError "io" "unexpected EOF".
Definition EOF : error := LibraryError "io" "EOF".

(** [io.ReadFull(rand.Reader, buf)] with [len(buf) = k]: [k] bytes, or
    an error when the source ends first. *)
Definition ReadFull (k : nat) : Reader -> result bytes * Reader :=
  fun r =>
    if (k <=? List.length r)%nat then (inl (firstn k r), skipn k r)
    else (inr (match r with [] => EOF | _ => ErrUnexpectedEOF end), []).

End io.

Module big.

(** [big.Int.SetBytes]: a big-endian unsigned integer. *)
Definition SetBytes (b : bytes) : Z :=
  fold_left (fun n v => n * 256 + Z.of_N (Byte.to_N v)) b 0.

(** [big.Int.BitLen] of a non-negative integer. *)
Definition BitLen (n : Z) : Z := if n =? 0 then 0 else Z.log2 n + 1.

(** [big.Int.String]: the decimal digits, with a minus sign when
    negative. *)
Definition String (n : Z) : string := NilZero.string_of_int (Z.to_int n).

End big.

Module rand.

Definition ErrMax : error :=
  LibraryError "crypto/rand" "argument to Int is <= 0".

(** The loop of [rand.Int]: read [k] bytes, clear the bits of the first
    byte above bit [b], accept a candidate below [max].  Every round
    consumes [k >= 1] bytes of the tape, so [fuel] bounds the rounds. *)
Fixpoint IntLoop (fuel : nat) (k : nat) (b : Z) (max : Z)
    (r : Reader) : result Z * Reader :=
  match fuel with
  | O => (inr io.EOF, r)
  | S fuel' =>
      match io.ReadFull k r with
      | (inr e, r') => (inr e, r')
      | (inl buf, r') =>
          let buf' :=
            match buf with
            | [] => []
            | b0 :: rest =>
                hex.byte_of (N.land (Byte.to_N b0)
                               (Z.to_N (Z.shiftl 1 b - 1))) :: rest
            end in
          let n := big.SetBytes buf' in
          if n <? max then (inl n, r') else IntLoop fuel' k b max r'
      end
  end.

(** [rand.Int(rand.Reader, max)]: panics when [max <= 0]; the result
    is 0 without reading when [max = 1]. *)
Definition Int (max : Z) : M Z :=
  fun r =>
    if max <=? 0 then (Panic ErrMax, r)
    else
      let bitLen := big.BitLen (max - 1) in
      if bitLen =? 0 then (Ok 0, r)
      else
        let k := (bitLen + 7) / 8 in
        let b := if bitLen mod 8 =? 0 then 8 else bitLen mod 8 in
        match IntLoop (S (List.length r)) (Z.to_nat k) b max r with
        | (inl n, r') => (Ok n, r')
        | (inr e, r') => (Err e, r')
        end.

End rand.

(** ** The libraries the code calls *)

(** The functions of the Go standard library that [certificate.go] calls
    and that are not written out above, with their Go signatures.  A
    function that takes [rand.Reader] takes and returns the tape. *)
Class Library : Type := {
  PrivateKey : Type;                    (* crypto.PrivateKey *)
  PublicKey : Type;                     (* crypto.PublicKey *)
  URL : Type;                           (* *url.URL *)
  (* ecdsa.GenerateKey(elliptic.P256(), rand.Reader) *)
  ecdsa_GenerateKey : Reader -> result PrivateKey * Reader;
  (* pKey.(crypto.Signer).Public() *)
  Public : PrivateKey -> PublicKey;
  MarshalPKCS8PrivateKey : PrivateKey -> result bytes;
  MarshalPKIXPublicKey : PublicKey -> result bytes;
  ParsePKCS8PrivateKey : bytes -> result PrivateKey;
  ParseCertificate : bytes -> result (x509.Certificate URL);
  (* x509.CreateCertificate(rand.Reader, template, parent, pub, priv) *)
  CreateCertificate :
    x509.Certificate URL -> x509.Certificate URL -> PublicKey -> PrivateKey ->
    Reader -> result bytes * Reader;
  sha1_Sum : bytes -> bytes;
  (* net.ParseIP: nil, here None, when the text is not an IP address *)
  ParseIP : string -> option bytes;
  url_Parse : string -> result URL
}.

(** The template type of the code. *)
Definition Template `{Library} : Type := x509.Certificate URL.

(** Assignments to the fields of a template. *)
Section Assign.

Context {L : Library}.
Import x509.

Definition set_Issuer (c : Template) (v : pkix.Name) : Template :=
  {| SerialNumber := SerialNumber c; Issuer := v; Subject := Subject c;
     NotBefore := NotBefore c; NotAfter := NotAfter c;
     KeyUsage_ := KeyUsage_ c; ExtKeyUsage_ := ExtKeyUsage_ c;
     BasicConstraintsValid := BasicConstraintsValid c; IsCA := IsCA c;
     SubjectKeyId := SubjectKeyId c; OCSPServer := OCSPServer c;
     DNSNames := DNSNames c; EmailAddresses := EmailAddresses c;
     IPAddresses := IPAddresses c; URIs := URIs c;
     CRLDistributionPoints := CRLDistributionPoints c |}.

Definition set_DNSNames (c : Template) (v : list string) : Template :=
  {| SerialNumber := SerialNumber c; Issuer := Issuer c; Subject := Subject c;
     NotBefore := NotBefore c; NotAfter := NotAfter c;
     KeyUsage_ := KeyUsage_ c; ExtKeyUsage_ := ExtKeyUsage_ c;
     BasicConstraintsValid := BasicConstraintsValid c; IsCA := IsCA c;
     SubjectKeyId := SubjectKeyId c; OCSPServer := OCSPServer c;
     DNSNames := v; EmailAddresses := EmailAddresses c;
     IPAddresses := IPAddresses c; URIs := URIs c;
     CRLDistributionPoints := CRLDistributionPoints c |}.

Definition set_EmailAddresses (c : Template) (v : list string) : Template :=
  {| SerialNumber := SerialNumber c; Issuer := Issuer c; Subject := Subject c;
     NotBefore := NotBefore c; NotAfter := NotAfter c;
     KeyUsage_ := KeyUsage_ c; ExtKeyUsage_ := ExtKeyUsage_ c;
     BasicConstraintsValid := BasicConstraintsValid c; IsCA := IsCA c;
     SubjectKeyId := SubjectKeyId c; OCSPServer := OCSPServer c;
     DNSNames := DNSNames c; EmailAddresses := v;
     IPAddresses := IPAddresses c; URIs := URIs c;
     CRLDistributionPoints := CRLDistributionPoints c |}.

Definition set_IPAddresses (c : Template) (v : list bytes) : Template :=
  {| SerialNumber := SerialNumber c; Issuer := Issuer c; Subject := Subject c;
     NotBefore := NotBefore c; NotAfter := NotAfter c;
     KeyUsage_ := KeyUsage_ c; ExtKeyUsage_ := ExtKeyUsage_ c;
     BasicConstraintsValid := BasicConstraintsValid c; IsCA := IsCA c;
     SubjectKeyId := SubjectKeyId c; OCSPServer := OCSPServer c;
     DNSNames := DNSNames c; EmailAddresses := EmailAddresses c;
     IPAddresses := v; URIs := URIs c;
     CRLDistributionPoints := CRLDistributionPoints c |}.

Definition set_URIs (c : Template) (v : list URL) : Template :=
  {| SerialNumber := SerialNumber c; Issuer := Issuer c; Subject := Subject c;
     NotBefore := NotBefore c; NotAfter := NotAfter c;
     KeyUsage_ := KeyUsage_ c; ExtKeyUsage_ := ExtKeyUsage_ c;
     BasicConstraintsValid := BasicConstraintsValid c; IsCA := IsCA c;
     SubjectKeyId := SubjectKeyId c; OCSPServer := OCSPServer c;
     DNSNames := DNSNames c; EmailAddresses := EmailAddresses c;
     IPAddresses := IPAddresses c; URIs := v;
     CRLDistributionPoints := CRLDistributionPoints c |}.

Definition set_CRLDistributionPoints (c : Template) (v : list string) : Template :=
  {| SerialNumber := SerialNumber c; Issuer := Issuer c; Subject := Subject c;
     NotBefore := NotBefore c; NotAfter := NotAfter c;
     KeyUsage_ := KeyUsage_ c; ExtKeyUsage_ := ExtKeyUsage_ c;
     BasicConstraintsValid := BasicConstraintsValid c; IsCA := IsCA c;
     SubjectKeyId := SubjectKeyId c; OCSPServer := OCSPServer c;
     DNSNames := DNSNames c; EmailAddresses := EmailAddresses c;
     IPAddresses := IPAddresses c; URIs := URIs c;
     CRLDistributionPoints := v |}.

Definition set_OCSPServer (c : Template) (v : list string) : Template :=
  {| SerialNumber := SerialNumber c; Issuer := Issuer c; Subject := Subject c;
     NotBefore := NotBefore c; NotAfter := NotAfter c;
     KeyUsage_ := KeyUsage_ c; ExtKeyUsage_ := ExtKeyUsage_ c;
     BasicConstraintsValid := BasicConstraintsValid c; IsCA := IsCA c;
     SubjectKeyId := SubjectKeyId c; OCSPServer := v;
     DNSNames := DNSNames c; EmailAddresses := EmailAddresses c;
     IPAddresses := IPAddresses c; URIs := URIs c;
     CRLDistributionPoints := CRLDistributionPoints c |}.

End Assign.

(** ** The certificate record and its accessors *)

(** [Certificate] describes a certificate. *)
Module Certificate.

Record t : Type := {
  Serial : string;
  Subject : Name.t;
  CertificateAuthority : bool;
  CertificateData : string;
  KeyData : string
}.

(** [func (c Certificate) certificateDataBytes() []byte] *)
Definition certificateDataBytes (c : t) : outcome bytes :=
  match hex.DecodeString (CertificateData c) with
  | (data, Some err) => Panic err
  | (data, None) => Ok data
  end.

(** [func (c Certificate) keyDataBytes() []byte] *)
Definition keyDataBytes (c : t) : outcome bytes :=
  match hex.DecodeString (KeyData c) with
  | (data, Some err) => Panic err
  | (data, None) => Ok data
  end.

Section Accessors.

Context {L : Library}.

(** [func (c Certificate) x509() *x509.Certificate] *)
Definition x509 (c : t) : outcome Template :=
  obind (certificateDataBytes c) (fun data => must (ParseCertificate data)).

(** [func (c Certificate) pKey() crypto.PrivateKey] *)
Definition pKey (c : t) : outcome PrivateKey :=
  obind (keyDataBytes c) (fun data => must (ParsePKCS8PrivateKey data)).

(** [fmt.Sprintf] with the verb v on a [Name]: the fields in
    declaration order, separated by spaces, in braces. *)
Definition Sprintf_v (n : Name.t) : string :=
  "{" ++ Name.Organization n ++ " " ++ Name.City n ++ " " ++
  Name.Province n ++ " " ++ Name.Country n ++ " " ++
  Name.CommonName n ++ "}".

(** [func (c Certificate) Description() string] *)
Definition Description (c : t) : outcome string :=
  obind (x509 c) (fun x => Ok (Sprintf_v (nameFromPkix (x509.Subject x)))).

End Accessors.

End Certificate.

(** ** GenerateCertificate *)

Section Issue.

Context {L : Library}.
Local Open Scope go_scope.

(** [func generateKey() (crypto.PrivateKey, error)] *)
Definition generateKey : M PrivateKey :=
  fun r => let (k, r') := ecdsa_GenerateKey r in (try k, r').

(** [func randomSerialNumber()], which returns a [*big.Int] and an [error]. *)
Definition randomSerialNumber : M Z :=
  let serialNumberLimit := Z.shiftl 1 128 in
  rand.Int serialNumberLimit.

(** The composite literal [tpl := &x509.Certificate{...}] (lines 274-283):
    the fields not named, [IsCA] among them, have their zero value. *)
Definition newTemplate (request : CertificateRequest.t) (serial : Z)
    (h : bytes) : Template :=
  {| x509.SerialNumber := serial;
     x509.Issuer := pkix.zero;
     x509.Subject := Name.pkix (CertificateRequest.Subject request);
     x509.NotBefore := DateRange.NotBefore (CertificateRequest.Validity request);
     x509.NotAfter := DateRange.NotAfter (CertificateRequest.Validity request);
     x509.KeyUsage_ := KeyUsage.usage (CertificateRequest.Usage request);
     x509.ExtKeyUsage_ := [];
     x509.BasicConstraintsValid := true;
     x509.IsCA := false;
     x509.SubjectKeyId := h;
     x509.OCSPServer := [];
     x509.DNSNames := [];
     x509.EmailAddresses := [];
     x509.IPAddresses := [];
     x509.URIs := [];
     x509.CRLDistributionPoints := [] |}.

(** [if issuer != nil { tpl.Issuer = issuer.x509().Subject }] (285-287) *)
Definition setIssuer (tpl : Template) (issuer : option Certificate.t)
    : outcome Template :=
  match issuer with
  | Some i =>
      obind (Certificate.x509 i) (fun x => Ok (set_Issuer tpl (x509.Subject x)))
  | None => Ok tpl
  end.

(** The body of the loop over the alternate names: the [switch] on
    [name.Type] (lines 290-313). *)
Definition addAlternateName (tpl : Template) (name : AlternateName.t)
    : outcome Template :=
  let ty := AlternateName.Type_ name in
  let value := AlternateName.Value name in
  if String.eqb ty AlternateNameTypeDNS then
    Ok (set_DNSNames tpl (x509.DNSNames tpl ++ [value]))
  else if String.eqb ty AlternateNameTypeEmail then
    Ok (set_EmailAddresses tpl (x509.EmailAddresses tpl ++ [value]))
  else if String.eqb ty AlternateNameTypeIP then
    match ParseIP value with
    | None => Err (Errorf ("invalid ip address " ++ value))
    | Some ip => Ok (set_IPAddresses tpl (x509.IPAddresses tpl ++ [ip]))
    end
  else if String.eqb ty AlternateNameTypeURI then
    match url_Parse value with
    | inr err => Err err
    | inl u => Ok (set_URIs tpl (x509.URIs tpl ++ [u]))
    end
  else Ok tpl.

(** [for _, name := range request.AlternateNames { ... }] (289-314) *)
Fixpoint addAlternateNames (tpl : Template) (names : list AlternateName.t)
    : outcome Template :=
  match names with
  | [] => Ok tpl
  | name :: rest =>
      obind (addAlternateName tpl name) (fun tpl' => addAlternateNames tpl' rest)
  end.

(** The two [if] statements on the status providers (316-322). *)
Definition setStatusProviders (tpl : Template) (p : StatusProviders.t)
    : Template :=
  let tpl :=
    match StatusProviders.CRL p with
    | Some crl => set_CRLDistributionPoints tpl [crl]
    | None => tpl
    end in
  match StatusProviders.OCSP p with
  | Some ocsp => set_OCSPServer tpl [ocsp]
  | None => tpl
  end.

(** The template as it stands when it is signed: lines 274-322. *)
Definition template (request : CertificateRequest.t)
    (issuer : option Certificate.t) (serial : Z) (h : bytes)
    : outcome Template :=
  obind (setIssuer (newTemplate request serial h) issuer) (fun tpl =>
  obind (addAlternateNames tpl (CertificateRequest.AlternateNames request))
    (fun tpl =>
  Ok (setStatusProviders tpl (CertificateRequest.StatusProviders request)))).

(** The signing step (lines 326-336).  Go evaluates the arguments of
    the call from left to right: [issuer.x509()], then [issuer.pKey()]. *)
Definition sign (tpl : Template) (issuer : option Certificate.t)
    (pub : PublicKey) (pKey : PrivateKey) : M bytes :=
  match issuer with
  | None =>
      fun r => let (b, r') := CreateCertificate tpl tpl pub pKey r in (try b, r')
  | Some i =>
      parent <- pure (Certificate.x509 i) ;;
      key <- pure (Certificate.pKey i) ;;
      fun r => let (b, r') := CreateCertificate tpl parent pub key r in (try b, r')
  end.

(** [isNil issuer] is the Go expression [issuer == nil]. *)
Definition isNil {A} (p : option A) : bool :=
  match p with None => true | Some _ => false end.

(** [func GenerateCertificate(request CertificateRequest, issuer
    *Certificate)], which returns a [*Certificate] and an [error]; a nil
    [issuer] is [None]. *)
Definition GenerateCertificate (request : CertificateRequest.t)
    (issuer : option Certificate.t) : M Certificate.t :=
  pKey <- generateKey ;;
  let pub := Public pKey in
  serial <- randomSerialNumber ;;
  pKeyBytes <- pure (try (MarshalPKCS8PrivateKey pKey)) ;;
  publicKeyBytes <- pure (try (MarshalPKIXPublicKey pub)) ;;
  let h := sha1_Sum publicKeyBytes in
  tpl <- pure (template request issuer serial h) ;;
  certBytes <- sign tpl issuer pub pKey ;;
  ret {| Certificate.Serial := big.String serial;
         Certificate.CertificateAuthority := isNil issuer;
         Certificate.KeyData := hex.EncodeToString pKeyBytes;
         Certificate.Subject := CertificateRequest.Subject request;
         Certificate.CertificateData := hex.EncodeToString certBytes |}.

End Issue.

(** ** A stand-in library, to run the code on examples

    [Demo] gives every field of [Library] a small executable body, so
    that [GenerateCertificate] and the accessors can be evaluated on
    concrete requests.  It is not a model of the Go libraries: keys are
    the bytes read from the tape, the "DER" of a certificate is the byte
    48 (the tag of a SEQUENCE) followed by the subject's common name, an
    IP address is four decimal numbers separated by dots, and a URL is
    any text without control characters.  General theorems quantify over
    every [Library]; [Demo] only supplies the examples. *)
Module Demo.

Definition bytes_of_string (s : string) : bytes :=
  List.map byte_of_ascii (list_ascii_of_string s).

Definition string_of_bytes (b : bytes) : string :=
  string_of_list_ascii (List.map ascii_of_byte b).

Definition isDigit (c : ascii) : bool :=
  let n := N_of_ascii c in (48 <=? n)%N && (n <=? 57)%N.

(** The value of a run of one to three decimal digits, at most 255. *)
Definition octet (s : list ascii) : option byte :=
  match s with
  | [] => None
  | _ =>
      if forallb isDigit s && (List.length s <=? 3)%nat then
        Byte.of_N (fold_left (fun n c => (n * 10 + (N_of_ascii c - 48))%N) s 0%N)
      else None
  end.

(** Split at the dots. *)
Fixpoint fields (s : list ascii) (cur : list ascii) : list (list ascii) :=
  match s with
  | [] => [List.rev cur]
  | c :: rest =>
      if Ascii.eqb c "."%char then List.rev cur :: fields rest []
      else fields rest (c :: cur)
  end.

Definition parseIP (s : string) : option bytes :=
  match List.map octet (fields (list_ascii_of_string s) []) with
  | [Some a; Some b; Some c; Some d] => Some [a; b; c; d]
  | _ => None
  end.

Definition isControl (c : ascii) : bool :=
  let n := N_of_ascii c in (n <? 32)%N || (n =? 127)%N.

Definition parseURL (s : string) : result string :=
  if existsb isControl (list_ascii_of_string s)
  then inr (LibraryError "net/url" "invalid control character in URL")
  else inl s.

Definition certificateOf (commonName : string) : x509.Certificate string :=
  {| x509.SerialNumber := 0;
     x509.Issuer := pkix.zero;
     x509.Subject :=
       {| pkix.Country := []; pkix.Organization := [];
          pkix.OrganizationalUnit := []; pkix.Locality := [];
          pkix.Province := []; pkix.StreetAddress := [];
          pkix.PostalCode := []; pkix.SerialNumber := "";
          pkix.CommonName := commonName;
          pkix.Names := []; pkix.ExtraNames := [] |};
     x509.NotBefore := 0; x509.NotAfter := 0;
     x509.KeyUsage_ := 0; x509.ExtKeyUsage_ := [];
     x509.BasicConstraintsValid := false; x509.IsCA := false;
     x509.SubjectKeyId := []; x509.OCSPServer := [];
     x509.DNSNames := []; x509.EmailAddresses := [];
     x509.IPAddresses := []; x509.URIs := [];
     x509.CRLDistributionPoints := [] |}.

Definition parseCertificate (der : bytes) : result (x509.Certificate string) :=
  match der with
  | x30 :: rest => inl (certificateOf (string_of_bytes rest))
  | _ => inr (LibraryError "crypto/x509" "malformed certificate")
  end.

Definition createCertificate (tpl parent : x509.Certificate string)
    (pub priv : bytes) (r : Reader) : result bytes * Reader :=
  (inl (x30 :: bytes_of_string (pkix.CommonName (x509.Subject tpl))), r).

Definition parseKey (der : bytes) : result bytes :=
  match der with
  | [] => inr (LibraryError "crypto/x509" "malformed private key")
  | _ => inl der
  end.

#[export] Instance library : Library := {|
  PrivateKey := bytes;
  PublicKey := bytes;
  URL := string;
  ecdsa_GenerateKey := io.ReadFull 4;
  Public := fun k => k;
  MarshalPKCS8PrivateKey := fun k => inl k;
  MarshalPKIXPublicKey := fun k => inl k;
  ParsePKCS8PrivateKey := parseKey;
  ParseCertificate := parseCertificate;
  CreateCertificate := createCertificate;
  sha1_Sum := fun b => firstn 20 b;
  ParseIP := parseIP;
  url_Parse := parseURL
|}.

(** Requests and records for the examples. *)

Definition noUsage : KeyUsage.t :=
  {| KeyUsage.DigitalSignature := false; KeyUsage.ContentCommitment := false;
     KeyUsage.KeyEncipherment := false; KeyUsage.DataEncipherment := false;
     KeyUsage.KeyAgreement := false; KeyUsage.CertSign := false;
     KeyUsage.CRLSign := false; KeyUsage.EncipherOnly := false;
     KeyUsage.DecipherOnly := false;
     KeyUsage.ServerAuth := false; KeyUsage.ClientAuth := false;
     KeyUsage.CodeSigning := false; KeyUsage.EmailProtection := false;
     KeyUsage.TimeStamping := false; KeyUsage.OCSPSigning := false |}.

Definition serverClient : KeyUsage.t :=
  {| KeyUsage.DigitalSignature := true; KeyUsage.ContentCommitment := false;
     KeyUsage.KeyEncipherment := true; KeyUsage.DataEncipherment := false;
     KeyUsage.KeyAgreement := false; KeyUsage.CertSign := false;
     KeyUsage.CRLSign := false; KeyUsage.EncipherOnly := false;
     KeyUsage.DecipherOnly := false;
     KeyUsage.ServerAuth := true; KeyUsage.ClientAuth := true;
     KeyUsage.CodeSigning := false; KeyUsage.EmailProtection := false;
     KeyUsage.TimeStamping := false; KeyUsage.OCSPSigning := false |}.

Definition subject : Name.t :=
  {| Name.Organization := "Example Org"; Name.City := "Vancouver";
     Name.Province := "BC"; Name.Country := "CA";
     Name.CommonName := "leaf.example.com" |}.

Definition request (names : list AlternateName.t) (usage : KeyUsage.t)
    (ca : bool) : CertificateRequest.t :=
  {| CertificateRequest.Subject := subject;
     CertificateRequest.Validity :=
       {| DateRange.NotBefore := 1700000000; DateRange.NotAfter := 1800000000 |};
     CertificateRequest.AlternateNames := names;
     CertificateRequest.Usage := usage;
     CertificateRequest.IsCertificateAuthority := ca;
     CertificateRequest.StatusProviders :=
       {| StatusProviders.CRL := None; StatusProviders.OCSP := None |} |}.

Definition alt (ty value : string) : AlternateName.t :=
  {| AlternateName.Type_ := ty; AlternateName.Value := value |}.

(** A stored root: hex of the byte 48 and of the text "root", with a
    four-byte key. *)
Definition root : Certificate.t :=
  {| Certificate.Serial := "1";
     Certificate.Subject := subject;
     Certificate.CertificateAuthority := true;
     Certificate.CertificateData := "30726f6f74";
     Certificate.KeyData := "0a0b0c0d" |}.

(** The same record with the last byte of the text of [CertificateData]
    lost. *)
Definition truncated : Certificate.t :=
  {| Certificate.Serial := "1";
     Certificate.Subject := subject;
     Certificate.CertificateAuthority := true;
     Certificate.CertificateData := "30726f6f7";
     Certificate.KeyData := "0a0b0c0d" |}.

(** A tape: four bytes for the key, sixteen for the serial. *)
Definition tape : Reader :=
  [x01; x02; x03; x04;
   x00; x00; x00; x00; x00; x00; x00; x00;
   x00; x00; x00; x00; x00; x00; x01; x00].

(** A tape whose sixteen serial bytes are all zero. *)
Definition zeroTape : Reader := ([x01; x02; x03; x04] ++ repeat x00 16)%list.

End Demo.

(** * The vocabulary of the properties *)

(** The decoding the specification describes: the first value of an
    attribute, the empty string when the attribute has no value. *)
Definition fromDistinguishedName (p : pkix.Name) : Name.t :=
  {| Name.Organization := hd "" (pkix.Organization p);
     Name.City := hd "" (pkix.Locality p);
     Name.Province := hd "" (pkix.Province p);
     Name.Country := hd "" (pkix.Country p);
     Name.CommonName := pkix.CommonName p |}.

(** The extended usages in the order of their declaration, each with its
    flag. *)
Definition extendedFlags (u : KeyUsage.t) : list (bool * x509.ExtKeyUsage) :=
  [ (KeyUsage.ServerAuth u, x509.ExtKeyUsageServerAuth);
    (KeyUsage.ClientAuth u, x509.ExtKeyUsageClientAuth);
    (KeyUsage.CodeSigning u, x509.ExtKeyUsageCodeSigning);
    (KeyUsage.EmailProtection u, x509.ExtKeyUsageEmailProtection);
    (KeyUsage.TimeStamping u, x509.ExtKeyUsageTimeStamping);
    (KeyUsage.OCSPSigning u, x509.ExtKeyUsageOCSPSigning) ].

(** The flag that asks for an extended usage; no flag asks for the
    usages the request cannot name. *)
Definition extendedFlag (u : KeyUsage.t) (e : x509.ExtKeyUsage) : bool :=
  match e with
  | x509.ExtKeyUsageServerAuth => KeyUsage.ServerAuth u
  | x509.ExtKeyUsageClientAuth => KeyUsage.ClientAuth u
  | x509.ExtKeyUsageCodeSigning => KeyUsage.CodeSigning u
  | x509.ExtKeyUsageEmailProtection => KeyUsage.EmailProtection u
  | x509.ExtKeyUsageTimeStamping => KeyUsage.TimeStamping u
  | x509.ExtKeyUsageOCSPSigning => KeyUsage.OCSPSigning u
  | _ => false
  end.

Definition occurrences (e : x509.ExtKeyUsage) (l : list x509.ExtKeyUsage) : nat :=
  List.length (filter (x509.ExtKeyUsage_eqb e) l).

Definition noExtended (u : KeyUsage.t) : bool :=
  negb (KeyUsage.ServerAuth u || KeyUsage.ClientAuth u || KeyUsage.CodeSigning u
        || KeyUsage.EmailProtection u || KeyUsage.TimeStamping u
        || KeyUsage.OCSPSigning u).

Definition isHexDigit (c : ascii) : bool :=
  existsb (Ascii.eqb c) (list_ascii_of_string "0123456789abcdefABCDEF").

(** A text that [hex.DecodeString] accepts: hex digits, an even number
    of them. *)
Definition wellFormedHex (s : string) : bool :=
  Nat.even (String.length s) && forallb isHexDigit (list_ascii_of_string s).

(** A stored field is corrupt when its text is not well-formed hex or
    when the bytes it holds are refused by the DER parser. *)
Definition corrupt {A} (parse : bytes -> result A) (data : string) : bool :=
  negb (wellFormedHex data)
  || match parse (fst (hex.DecodeString data)) with
     | inr _ => true
     | inl _ => false
     end.

(** The text without its last byte. *)
Fixpoint dropLast (s : string) : string :=
  match s with
  | EmptyString => EmptyString
  | String c rest =>
      match rest with
      | EmptyString => EmptyString
      | String _ _ => String c (dropLast rest)
      end
  end.

(** The record with another text in [CertificateData]. *)
Definition withCertificateData (c : Certificate.t) (data : string)
    : Certificate.t :=
  {| Certificate.Serial := Certificate.Serial c;
     Certificate.Subject := Certificate.Subject c;
     Certificate.CertificateAuthority := Certificate.CertificateAuthority c;
     Certificate.CertificateData := data;
     Certificate.KeyData := Certificate.KeyData c |}.

Section Issuance.

Context {L : Library}.

(** The parent certificate and the signing key of the signing step:
    the template and the fresh key for a root, the decoded issuer
    record otherwise. *)
Definition signer (issuer : option Certificate.t) (tpl : Template)
    (pKey : PrivateKey) : outcome (Template * PrivateKey) :=
  match issuer with
  | None => Ok (tpl, pKey)
  | Some i =>
      obind (Certificate.x509 i) (fun parent =>
      obind (Certificate.pKey i) (fun key => Ok (parent, key)))
  end.

(** [signedFrom request issuer r cert r' tpl]: started on the tape [r],
    [GenerateCertificate request issuer] went through every step,
    handed the template [tpl] to [x509.CreateCertificate], left the
    tape [r'], and returned the record [cert]. *)
Inductive signedFrom (request : CertificateRequest.t)
    (issuer : option Certificate.t) (r : Reader)
    : Certificate.t -> Reader -> Template -> Prop :=
| signed pKey r1 serial r2 pKeyBytes publicKeyBytes tpl parent key
    certBytes r' :
    generateKey r = (Ok pKey, r1) ->
    randomSerialNumber r1 = (Ok serial, r2) ->
    MarshalPKCS8PrivateKey pKey = inl pKeyBytes ->
    MarshalPKIXPublicKey (Public pKey) = inl publicKeyBytes ->
    template request issuer serial (sha1_Sum publicKeyBytes) = Ok tpl ->
    signer issuer tpl pKey = Ok (parent, key) ->
    CreateCertificate tpl parent (Public pKey) key r2 = (inl certBytes, r') ->
    signedFrom request issuer r
      {| Certificate.Serial := big.String serial;
         Certificate.CertificateAuthority := isNil issuer;
         Certificate.KeyData := hex.EncodeToString pKeyBytes;
         Certificate.Subject := CertificateRequest.Subject request;
         Certificate.CertificateData := hex.EncodeToString certBytes |}
      r' tpl.

(** The fields that no statement after the composite literal assigns. *)
Definition fixedFields (tpl : Template) : list x509.ExtKeyUsage * bool * bool :=
  (x509.ExtKeyUsage_ tpl, x509.BasicConstraintsValid tpl, x509.IsCA tpl).

End Issuance.

Section AlternateNames.

Context {L : Library}.

Definition hasType (ty : string) (name : AlternateName.t) : bool :=
  String.eqb (AlternateName.Type_ name) ty.

(** The four types the [switch] has a case for. *)
Definition knownTypes : list string :=
  [AlternateNameTypeDNS; AlternateNameTypeEmail; AlternateNameTypeIP;
   AlternateNameTypeURI].

Definition known (name : AlternateName.t) : bool :=
  existsb (String.eqb (AlternateName.Type_ name)) knownTypes.

(** The values of the entries of one type, in the order of the request. *)
Definition valuesOf (ty : string) (names : list AlternateName.t) : list string :=
  map AlternateName.Value (filter (hasType ty) names).

(** An entry of type ip or uri whose value the library parses; any
    other entry. *)
Definition parses (name : AlternateName.t) : bool :=
  if hasType AlternateNameTypeIP name then
    match ParseIP (AlternateName.Value name) with
    | Some _ => true
    | None => false
    end
  else if hasType AlternateNameTypeURI name then
    match url_Parse (AlternateName.Value name) with
    | inl _ => true
    | inr _ => false
    end
  else true.

(** The error that one entry makes the loop return: the formatted
    error for an ip entry that does not parse, the error of
    [url.Parse] for a uri entry that does not parse. *)
Definition invalidName (name : AlternateName.t) (e : error) : Prop :=
  (AlternateName.Type_ name = AlternateNameTypeIP /\
   ParseIP (AlternateName.Value name) = None /\
   e = Errorf ("invalid ip address " ++ AlternateName.Value name)) \/
  (AlternateName.Type_ name = AlternateNameTypeURI /\
   url_Parse (AlternateName.Value name) = inr e).

(** [e] is the error of an alternate name of the request that does not
    parse: the condition the specification calls InvalidAlternateName. *)
Definition invalidAlternateName (names : list AlternateName.t) (e : error)
    : Prop :=
  exists name, In name names /\ invalidName name e.

(** The four lists of the template hold the entries of the request of
    their type, parsed where the type asks for it, in input order. *)
Definition grouped (names : list AlternateName.t) (tpl : Template) : Prop :=
  x509.DNSNames tpl = valuesOf AlternateNameTypeDNS names /\
  x509.EmailAddresses tpl = valuesOf AlternateNameTypeEmail names /\
  map Some (x509.IPAddresses tpl)
    = map ParseIP (valuesOf AlternateNameTypeIP names) /\
  map inl (x509.URIs tpl)
    = map url_Parse (valuesOf AlternateNameTypeURI names).

(** The request with another list of alternate names. *)
Definition withAlternateNames (request : CertificateRequest.t)
    (names : list AlternateName.t) : CertificateRequest.t :=
  {| CertificateRequest.Subject := CertificateRequest.Subject request;
     CertificateRequest.Validity := CertificateRequest.Validity request;
     CertificateRequest.AlternateNames := names;
     CertificateRequest.Usage := CertificateRequest.Usage request;
     CertificateRequest.IsCertificateAuthority :=
       CertificateRequest.IsCertificateAuthority request;
     CertificateRequest.StatusProviders :=
       CertificateRequest.StatusProviders request |}.

(** The steps of [GenerateCertificate] before the loop over the
    alternate names all succeed on the tape [r] and leave the tape
    [r2]: the key, the serial, the two encodings of the key, and the
    decoding of the issuer when there is one. *)
Definition prepared (request : CertificateRequest.t)
    (issuer : option Certificate.t) (r r2 : Reader) : Prop :=
  exists pKey r1 serial pKeyBytes publicKeyBytes tpl0,
    generateKey r = (Ok pKey, r1) /\
    randomSerialNumber r1 = (Ok serial, r2) /\
    MarshalPKCS8PrivateKey pKey = inl pKeyBytes /\
    MarshalPKIXPublicKey (Public pKey) = inl publicKeyBytes /\
    setIssuer (newTemplate request serial (sha1_Sum publicKeyBytes)) issuer
      = Ok tpl0.

(** The four lists the loop appends to. *)
Definition nameLists (tpl : Template)
    : list string * list string * list bytes * list URL :=
  (x509.DNSNames tpl, x509.EmailAddresses tpl, x509.IPAddresses tpl,
   x509.URIs tpl).

End AlternateNames.

(** The serial number a record stores, read back from its decimal text. *)
Definition serialNumber (s : string) : option Z :=
  option_map Z.of_int (NilZero.int_of_string s).

(** The big-endian bytes of a number, on [k] bytes: the inverse of
    [big.SetBytes] on blocks of [k] bytes. *)
Fixpoint toBytes (k : nat) (n : Z) : bytes :=
  match k with
  | O => []
  | S k' => (toBytes k' (n / 256) ++ [hex.byte_of (Z.to_N (n mod 256))])%list
  end.

(** ** Further vocabulary *)

(** The basic flag that stands for a bit of the key-usage mask. *)
Definition basicFlag (u : KeyUsage.t) (i : Z) : bool :=
  match i with
  | 0 => KeyUsage.DigitalSignature u
  | 1 => KeyUsage.ContentCommitment u
  | 2 => KeyUsage.KeyEncipherment u
  | 3 => KeyUsage.DataEncipherment u
  | 4 => KeyUsage.KeyAgreement u
  | 5 => KeyUsage.CertSign u
  | 6 => KeyUsage.CRLSign u
  | 7 => KeyUsage.EncipherOnly u
  | 8 => KeyUsage.DecipherOnly u
  | _ => false
  end.

(** The nine basic flags, in the order of their declaration. *)
Definition basicFlags (u : KeyUsage.t) : list bool :=
  [KeyUsage.DigitalSignature u; KeyUsage.ContentCommitment u;
   KeyUsage.KeyEncipherment u; KeyUsage.DataEncipherment u;
   KeyUsage.KeyAgreement u; KeyUsage.CertSign u; KeyUsage.CRLSign u;
   KeyUsage.EncipherOnly u; KeyUsage.DecipherOnly u].

Section FurtherVocabulary.

Context {L : Library}.

(** The steps of [GenerateCertificate] that make the key material all
    succeed on the tape [r] and leave the tape [r2]. *)
Definition keyed (r : Reader) (pKey : PrivateKey) (serial : Z)
    (pKeyBytes publicKeyBytes : bytes) (r2 : Reader) : Prop :=
  exists r1,
    generateKey r = (Ok pKey, r1) /\
    randomSerialNumber r1 = (Ok serial, r2) /\
    MarshalPKCS8PrivateKey pKey = inl pKeyBytes /\
    MarshalPKIXPublicKey (Public pKey) = inl publicKeyBytes.

(** The fields of the template that come from the request and from the
    key material, and that no later statement assigns. *)
Definition requestFields (tpl : Template)
    : Z * pkix.Name * Z * Z * x509.KeyUsage * bytes :=
  (x509.SerialNumber tpl, x509.Subject tpl, x509.NotBefore tpl,
   x509.NotAfter tpl, x509.KeyUsage_ tpl, x509.SubjectKeyId tpl).

(** The two lists of the status providers. *)
Definition statusLists (tpl : Template) : list string * list string :=
  (x509.CRLDistributionPoints tpl, x509.OCSPServer tpl).

(** A nil pointer gives no entry, a URL gives one. *)
Definition optionList (p : option string) : list string :=
  match p with
  | Some s => [s]
  | None => []
  end.

End FurtherVocabulary.

(** A request that names a CRL address and no OCSP address. *)
Definition requestWithCRL : CertificateRequest.t :=
  {| CertificateRequest.Subject := Demo.subject;
     CertificateRequest.Validity :=
       {| DateRange.NotBefore := 1700000000; DateRange.NotAfter := 1800000000 |};
     CertificateRequest.AlternateNames := [];
     CertificateRequest.Usage := Demo.noUsage;
     CertificateRequest.IsCertificateAuthority := false;
     CertificateRequest.StatusProviders :=
       {| StatusProviders.CRL := Some "http://crl.example/root.crl";
          StatusProviders.OCSP := None |} |}.

(** A stored record whose certificate is sound and whose key is not hex. *)
Definition badKeyRecord : Certificate.t :=
  {| Certificate.Serial := "1";
     Certificate.Subject := Demo.subject;
     Certificate.CertificateAuthority := true;
     Certificate.CertificateData := "30726f6f74";
     Certificate.KeyData := "0a0b0c0z" |}.

(** A text with a control character, which is no URL. *)
Definition notURL : string := String "009"%char "http://a.example".

(** A tape for two issuances in a row. *)
Definition longTape : Reader := (Demo.tape ++ Demo.tape)%list.

(** The stored root with another serial, another subject and no
    certificate-authority mark. *)
Definition unmarkedRoot : Certificate.t :=
  {| Certificate.Serial := "77";
     Certificate.Subject :=
       {| Name.Organization := ""; Name.City := ""; Name.Province := "";
          Name.Country := ""; Name.CommonName := "someone else" |};
     Certificate.CertificateAuthority := false;
     Certificate.CertificateData := "30726f6f74";
     Certificate.KeyData := "0a0b0c0d" |}.

(** * Properties *)

(** ** Outcomes *)

Lemma obind_Ok {A B} (o : outcome A) (k : A -> outcome B) (b : B) :
  obind o k = Ok b -> exists a, o = Ok a /\ k a = Ok b.
Proof.
  destruct o as [a | e | e]; simpl; intros H; try discriminate.
  exists a; split; [reflexivity | exact H].
Qed.

Lemma bind_Ok {A B} (m : M A) (k : A -> M B) (r r' : Reader) (b : B) :
  bind m k r = (Ok b, r') ->
  exists a r1, m r = (Ok a, r1) /\ k a r1 = (Ok b, r').
Proof.
  unfold bind. destruct (m r) as [[a | e | e] r1]; intros H; try discriminate.
  exists a, r1; split; [reflexivity | exact H].
Qed.

Lemma pure_Ok {A} (o : outcome A) (r r' : Reader) (a : A) :
  pure o r = (Ok a, r') -> o = Ok a /\ r' = r.
Proof. unfold pure. intros H; inversion H; subst; split; reflexivity. Qed.

Lemma try_Ok {A} (x : result A) (a : A) : try x = Ok a -> x = inl a.
Proof. destruct x; simpl; intros H; inversion H; reflexivity. Qed.

Lemma must_Ok {A} (x : result A) (a : A) : must x = Ok a -> x = inl a.
Proof. destruct x; simpl; intros H; inversion H; reflexivity. Qed.

(** ** The subject mapper *)

Lemma firstOrEmpty_hd (p : list string) : firstOrEmpty p = hd "" p.
Proof. destruct p; reflexivity. Qed.

(** C10. [nameFromPkix] undoes [pkix]: for every name [n],
    [nameFromPkix (Name.pkix n) = n].  On any distinguished name the
    decoding takes the first value of an attribute and leaves the field
    empty when the attribute has none. *)
Theorem nameFromPkix_inverse_of_pkix :
  (forall n : Name.t, nameFromPkix (Name.pkix n) = n) /\
  (forall p : pkix.Name, nameFromPkix p = fromDistinguishedName p).
Proof.
  split.
  - intros [org city prov country cn]. reflexivity.
  - intros p. unfold nameFromPkix, fromDistinguishedName.
    now rewrite !firstOrEmpty_hd.
Qed.

(** ** The key usage encoder *)

(** C9. [extendedUsage] returns the usages whose flag is true, in the
    order serverAuth, clientAuth, codeSigning, emailProtection,
    timeStamping, ocspSigning; each usage occurs once when its flag is
    true and not at all otherwise; the list is empty exactly when all six
    flags are false. *)
Theorem extendedUsage_one_entry_per_flag (u : KeyUsage.t) :
  KeyUsage.extendedUsage u = map snd (filter fst (extendedFlags u)) /\
  (forall e, occurrences e (KeyUsage.extendedUsage u)
             = if extendedFlag u e then 1%nat else 0%nat) /\
  (match KeyUsage.extendedUsage u with [] => true | _ => false end
   = noExtended u).
Proof.
  destruct u as [b1 b2 b3 b4 b5 b6 b7 b8 b9 s c cs ep ts os].
  unfold KeyUsage.extendedUsage, extendedFlags, noExtended, occurrences; simpl.
  repeat split.
  - destruct s, c, cs, ep, ts, os; reflexivity.
  - intros e. destruct s, c, cs, ep, ts, os; destruct e; reflexivity.
  - destruct s, c, cs, ep, ts, os; reflexivity.
Qed.

(** ** encoding/hex *)

Lemma reverseHexTable_digit (c : ascii) :
  (15 <? hex.reverseHexTable c)%N = negb (isHexDigit c).
Proof.
  destruct c as [[] [] [] [] [] [] [] []]; vm_compute; reflexivity.
Qed.

Lemma Decode_accepts_aux (s : string) :
  (match snd (hex.Decode s) with None => true | Some _ => false end
   = wellFormedHex s) /\
  (forall c, match snd (hex.Decode (String c s)) with
             | None => true | Some _ => false end
             = wellFormedHex (String c s)).
Proof.
  induction s as [| q s [IH1 IH2]].
  - split; [reflexivity |].
    intros c. unfold wellFormedHex. simpl.
    rewrite reverseHexTable_digit. destruct (isHexDigit c); reflexivity.
  - split; [apply IH2 |].
    intros p. cbn [hex.Decode].
    rewrite !reverseHexTable_digit.
    unfold wellFormedHex in *.
    cbn [String.length list_ascii_of_string forallb].
    change (Nat.even (S (S (String.length s)))) with (Nat.even (String.length s)).
    destruct (isHexDigit p); simpl; [| now rewrite andb_false_r].
    destruct (isHexDigit q); simpl.
    + destruct (hex.Decode s) as [dst err]. simpl in *. exact IH1.
    + now rewrite andb_false_r.
Qed.

Lemma DecodeString_accepts (s : string) :
  match snd (hex.DecodeString s) with None => true | Some _ => false end
  = wellFormedHex s.
Proof. apply Decode_accepts_aux. Qed.

Lemma Decode_encoded_byte (v : byte) :
  (15 <? hex.reverseHexTable (hex.digit (N.shiftr (Byte.to_N v) 4)))%N = false /\
  (15 <? hex.reverseHexTable (hex.digit (N.land (Byte.to_N v) 15)))%N = false /\
  hex.byte_of
    (N.lor (N.shiftl (hex.reverseHexTable (hex.digit (N.shiftr (Byte.to_N v) 4))) 4)
       (hex.reverseHexTable (hex.digit (N.land (Byte.to_N v) 15)))) = v.
Proof. destruct v; vm_compute; repeat split; reflexivity. Qed.

(** What [hex.EncodeToString] writes, [hex.DecodeString] reads back
    without error: the records that [GenerateCertificate] makes pass the
    hex stage of the accessors. *)
Lemma DecodeString_EncodeToString (b : bytes) :
  hex.DecodeString (hex.EncodeToString b) = (b, None).
Proof.
  unfold hex.DecodeString.
  induction b as [| v rest IH]; [reflexivity |].
  cbn [hex.EncodeToString hex.Decode].
  destruct (Decode_encoded_byte v) as (Hhi & Hlo & Hv).
  rewrite Hhi, Hlo, Hv, IH. reflexivity.
Qed.

(** ** The record accessors *)

Lemma accessor_panics {A} (parse : bytes -> result A) (data : string) :
  let o :=
    obind (match hex.DecodeString data with
           | (b, Some err) => Panic err
           | (b, None) => Ok b
           end) (fun b => must (parse b)) in
  panics o = corrupt parse data /\ fails o = false.
Proof.
  unfold corrupt. rewrite <- DecodeString_accepts.
  destruct (hex.DecodeString data) as [b [err |]]; simpl.
  - split; reflexivity.
  - destruct (parse b); simpl; split; reflexivity.
Qed.

Lemma Decode_odd_aux (s : string) :
  (forallb isHexDigit (list_ascii_of_string s) = true ->
   Nat.odd (String.length s) = true ->
   snd (hex.Decode s) = Some ErrLength) /\
  (forall c,
     forallb isHexDigit (list_ascii_of_string (String c s)) = true ->
     Nat.odd (String.length (String c s)) = true ->
     snd (hex.Decode (String c s)) = Some ErrLength).
Proof.
  induction s as [| q s [IH1 IH2]].
  - split; [intros _ Hodd; discriminate Hodd |].
    intros c Hhex _. simpl in Hhex. rewrite andb_true_r in Hhex.
    cbn [hex.Decode]. rewrite reverseHexTable_digit, Hhex. reflexivity.
  - split; [apply IH2 |].
    intros p Hhex Hodd.
    cbn [list_ascii_of_string forallb] in Hhex.
    apply andb_true_iff in Hhex. destruct Hhex as [Hp Hhex].
    apply andb_true_iff in Hhex. destruct Hhex as [Hq Hhex].
    cbn [hex.Decode]. rewrite !reverseHexTable_digit, Hp, Hq. simpl.
    change (Nat.odd (String.length s) = true) in Hodd.
    specialize (IH1 Hhex Hodd).
    destruct (hex.Decode s) as [dst err]. exact IH1.
Qed.

Lemma dropLast_hex (s : string) :
  forallb isHexDigit (list_ascii_of_string s) = true ->
  forallb isHexDigit (list_ascii_of_string (dropLast s)) = true.
Proof.
  induction s as [| c s IH]; [reflexivity |].
  intros Hhex. cbn [list_ascii_of_string forallb] in Hhex.
  apply andb_true_iff in Hhex. destruct Hhex as [Hc Hhex].
  destruct s as [| c' s']; [reflexivity |].
  change (dropLast (String c (String c' s')))
    with (String c (dropLast (String c' s'))).
  cbn [list_ascii_of_string forallb]. rewrite Hc. simpl. apply IH. exact Hhex.
Qed.

Lemma dropLast_length (s : string) :
  s <> EmptyString -> S (String.length (dropLast s)) = String.length s.
Proof.
  induction s as [| c s IH]; [intros Hs; now destruct Hs |].
  intros _. destruct s as [| c' s']; [reflexivity |].
  change (dropLast (String c (String c' s')))
    with (String c (dropLast (String c' s'))).
  cbn [String.length]. f_equal. apply IH. discriminate.
Qed.

(** A well-formed hex text that loses its last byte has an odd length,
    and [hex.DecodeString] answers [ErrLength]. *)
Lemma DecodeString_dropLast (s : string) :
  wellFormedHex s = true -> s <> EmptyString ->
  snd (hex.DecodeString (dropLast s)) = Some ErrLength.
Proof.
  unfold wellFormedHex. intros Hwf Hs.
  apply andb_true_iff in Hwf. destruct Hwf as [Heven Hhex].
  apply Decode_odd_aux.
  - apply dropLast_hex. exact Hhex.
  - rewrite <- (dropLast_length Hs), Nat.even_succ in Heven. exact Heven.
Qed.

(** What an accessor does, case by case. *)
Lemma accessor_outcome {A} (parse : bytes -> result A) (data : string) :
  let o :=
    obind (match hex.DecodeString data with
           | (b, Some err) => Panic err
           | (b, None) => Ok b
           end) (fun b => must (parse b)) in
  (forall b err, hex.DecodeString data = (b, Some err) -> o = Panic err) /\
  (forall b err,
     hex.DecodeString data = (b, None) -> parse b = inr err -> o = Panic err) /\
  (forall b a,
     hex.DecodeString data = (b, None) -> parse b = inl a -> o = Ok a).
Proof.
  cbv zeta. repeat split.
  - intros b err Hd. rewrite Hd. reflexivity.
  - intros b err Hd Hp. rewrite Hd. simpl. rewrite Hp. reflexivity.
  - intros b a Hd Hp. rewrite Hd. simpl. rewrite Hp. reflexivity.
Qed.

(** C3, as the code has it.  When the hex decoding of [CertificateData]
    fails, [x509] panics with the error of [hex.DecodeString]; when the
    bytes decode and [x509.ParseCertificate] refuses them, it panics with
    the error of the parser; otherwise it returns the parsed certificate.
    [pKey] does the same with [KeyData] and [x509.ParsePKCS8PrivateKey].
    So each accessor panics exactly when its field is corrupt and never
    returns an error value.  In particular a record whose
    [CertificateData], well-formed before, has lost its last byte makes
    [x509] panic with [hex.ErrLength]. *)
Theorem accessors_panic_on_corrupt_record `{Library} (c : Certificate.t) :
  (forall b err,
     hex.DecodeString (Certificate.CertificateData c) = (b, Some err) ->
     Certificate.x509 c = Panic err) /\
  (forall b err,
     hex.DecodeString (Certificate.CertificateData c) = (b, None) ->
     ParseCertificate b = inr err ->
     Certificate.x509 c = Panic err) /\
  (forall b x,
     hex.DecodeString (Certificate.CertificateData c) = (b, None) ->
     ParseCertificate b = inl x ->
     Certificate.x509 c = Ok x) /\
  (forall b err,
     hex.DecodeString (Certificate.KeyData c) = (b, Some err) ->
     Certificate.pKey c = Panic err) /\
  (forall b err,
     hex.DecodeString (Certificate.KeyData c) = (b, None) ->
     ParsePKCS8PrivateKey b = inr err ->
     Certificate.pKey c = Panic err) /\
  (forall b k,
     hex.DecodeString (Certificate.KeyData c) = (b, None) ->
     ParsePKCS8PrivateKey b = inl k ->
     Certificate.pKey c = Ok k) /\
  (panics (Certificate.x509 c)
   = corrupt ParseCertificate (Certificate.CertificateData c)) /\
  fails (Certificate.x509 c) = false /\
  (panics (Certificate.pKey c)
   = corrupt ParsePKCS8PrivateKey (Certificate.KeyData c)) /\
  fails (Certificate.pKey c) = false /\
  (wellFormedHex (Certificate.CertificateData c) = true ->
   Certificate.CertificateData c <> EmptyString ->
   Certificate.x509
     (withCertificateData c (dropLast (Certificate.CertificateData c)))
   = Panic ErrLength).
Proof.
  destruct (accessor_outcome ParseCertificate (Certificate.CertificateData c))
    as (Hc1 & Hc2 & Hc3).
  destruct (accessor_outcome ParsePKCS8PrivateKey (Certificate.KeyData c))
    as (Hk1 & Hk2 & Hk3).
  destruct (accessor_panics ParseCertificate (Certificate.CertificateData c))
    as [Hcp Hcf].
  destruct (accessor_panics ParsePKCS8PrivateKey (Certificate.KeyData c))
    as [Hkp Hkf].
  split; [exact Hc1 |]. split; [exact Hc2 |]. split; [exact Hc3 |].
  split; [exact Hk1 |]. split; [exact Hk2 |]. split; [exact Hk3 |].
  split; [exact Hcp |]. split; [exact Hcf |].
  split; [exact Hkp |]. split; [exact Hkf |].
  intros Hwf Hne.
  pose proof (DecodeString_dropLast Hwf Hne) as Hd.
  unfold Certificate.x509, Certificate.certificateDataBytes. simpl.
  destruct (hex.DecodeString (dropLast (Certificate.CertificateData c)))
    as [b err]. simpl in Hd. rewrite Hd. reflexivity.
Qed.

(** An instance of C3: the stored root loses the last byte of its
    [CertificateData] and becomes the record [Demo.truncated]. *)
Lemma accessors_panic_on_corrupt_record_witness :
  withCertificateData Demo.root
    (dropLast (Certificate.CertificateData Demo.root)) = Demo.truncated /\
  Certificate.x509 (L := Demo.library)
    (withCertificateData Demo.root
       (dropLast (Certificate.CertificateData Demo.root)))
  = Panic ErrLength.
Proof.
  split; [reflexivity |].
  destruct (accessors_panic_on_corrupt_record (H := Demo.library) Demo.root)
    as (_ & _ & _ & _ & _ & _ & _ & _ & _ & _ & Hdrop).
  apply Hdrop; [reflexivity | discriminate].
Defined.

(** C3, the claim refuted.  In the record [Demo.truncated] the field
    [CertificateData] has lost its last byte: it is corrupt, and the
    accessor panics with [hex.ErrLength] instead of returning an error. *)
Lemma truncated_record_panics :
  corrupt (@ParseCertificate Demo.library)
    (Certificate.CertificateData Demo.truncated) = true /\
  Certificate.certificateDataBytes Demo.truncated = Panic ErrLength /\
  Certificate.x509 (L := Demo.library) Demo.truncated = Panic ErrLength /\
  ~ (exists e, Certificate.x509 (L := Demo.library) Demo.truncated = Err e).
Proof.
  repeat split; try reflexivity.
  intros [e He]. discriminate He.
Qed.

(** ** GenerateCertificate, step by step *)

Section IssuanceFacts.

Context {L : Library}.

Lemma sign_Ok tpl issuer pKey r certBytes r' :
  sign tpl issuer (Public pKey) pKey r = (Ok certBytes, r') ->
  exists parent key,
    signer issuer tpl pKey = Ok (parent, key) /\
    CreateCertificate tpl parent (Public pKey) key r = (inl certBytes, r').
Proof.
  unfold sign, signer. destruct issuer as [i |].
  - intros H.
    apply bind_Ok in H. destruct H as (parent & r1 & Hp & H).
    apply pure_Ok in Hp. destruct Hp as [Hp ->].
    apply bind_Ok in H. destruct H as (key & r2 & Hk & H).
    apply pure_Ok in Hk. destruct Hk as [Hk ->].
    exists parent, key. rewrite Hp, Hk. simpl. split; [reflexivity |].
    destruct (CreateCertificate tpl parent (Public pKey) key r) as [b rb].
    inversion H as [[Hb Hr]]. apply try_Ok in Hb. now rewrite Hb.
  - intros H. exists tpl, pKey. split; [reflexivity |].
    destruct (CreateCertificate tpl tpl (Public pKey) pKey r) as [b rb].
    inversion H as [[Hb Hr]]. apply try_Ok in Hb. now rewrite Hb.
Qed.

(** Every record that [GenerateCertificate] returns was signed from a
    template built by [template]. *)
Lemma GenerateCertificate_Ok request issuer r cert r' :
  GenerateCertificate request issuer r = (Ok cert, r') ->
  exists tpl, signedFrom request issuer r cert r' tpl.
Proof.
  unfold GenerateCertificate. intros H.
  apply bind_Ok in H. destruct H as (pKey & r1 & HpKey & H).
  apply bind_Ok in H. destruct H as (serial & r2 & Hserial & H).
  apply bind_Ok in H. destruct H as (pKeyBytes & r3 & Hkb & H).
  apply pure_Ok in Hkb. destruct Hkb as [Hkb ->]. apply try_Ok in Hkb.
  apply bind_Ok in H. destruct H as (publicKeyBytes & r4 & Hpb & H).
  apply pure_Ok in Hpb. destruct Hpb as [Hpb ->]. apply try_Ok in Hpb.
  apply bind_Ok in H. destruct H as (tpl & r5 & Htpl & H).
  apply pure_Ok in Htpl. destruct Htpl as [Htpl ->].
  apply bind_Ok in H. destruct H as (certBytes & r6 & Hsign & H).
  apply sign_Ok in Hsign. destruct Hsign as (parent & key & Hsigner & Hcreate).
  unfold ret in H. inversion H; subst.
  exists tpl. econstructor; eassumption.
Qed.

Lemma setIssuer_fixedFields tpl issuer tpl' :
  setIssuer tpl issuer = Ok tpl' -> fixedFields tpl' = fixedFields tpl.
Proof.
  unfold setIssuer. destruct issuer as [i |].
  - intros H. apply obind_Ok in H. destruct H as (x & _ & H).
    inversion H; reflexivity.
  - intros H. inversion H; reflexivity.
Qed.

Lemma addAlternateName_fixedFields tpl name tpl' :
  addAlternateName tpl name = Ok tpl' -> fixedFields tpl' = fixedFields tpl.
Proof.
  unfold addAlternateName.
  repeat match goal with
         | |- context [if ?b then _ else _] => destruct b
         | |- context [match ?x with _ => _ end] => destruct x
         end;
    intros H; inversion H; reflexivity.
Qed.

Lemma addAlternateNames_fixedFields names : forall tpl tpl',
  addAlternateNames tpl names = Ok tpl' -> fixedFields tpl' = fixedFields tpl.
Proof.
  induction names as [| name rest IH]; simpl; intros tpl tpl' H.
  - inversion H; reflexivity.
  - apply obind_Ok in H. destruct H as (tpl1 & H1 & H).
    rewrite (IH _ _ H). eapply addAlternateName_fixedFields; eassumption.
Qed.

Lemma setStatusProviders_fixedFields tpl p :
  fixedFields (setStatusProviders tpl p) = fixedFields tpl.
Proof.
  unfold setStatusProviders.
  destruct (StatusProviders.CRL p), (StatusProviders.OCSP p); reflexivity.
Qed.

Lemma template_fixedFields request issuer serial h tpl :
  template request issuer serial h = Ok tpl ->
  fixedFields tpl = ([], true, false).
Proof.
  unfold template. intros H.
  apply obind_Ok in H. destruct H as (tpl1 & H1 & H).
  apply obind_Ok in H. destruct H as (tpl2 & H2 & H).
  inversion H; subst.
  rewrite setStatusProviders_fixedFields.
  rewrite (addAlternateNames_fixedFields _ _ H2).
  rewrite (setIssuer_fixedFields _ _ H1). reflexivity.
Qed.

End IssuanceFacts.

(** ** The certificate-authority flag and the basic constraints *)




(** C2, on the code.  When the request sets [ServerAuth] and
    [ClientAuth], [extendedUsage] would give the list that starts with
    serverAuth, clientAuth, but the template that is signed has the empty
    list of extended key usages: [GenerateCertificate] never calls
    [extendedUsage]. *)
Theorem issued_template_has_no_extended_usage `{Library}
    (request : CertificateRequest.t) (issuer : option Certificate.t)
    (r r' : Reader) (cert : Certificate.t) :
  KeyUsage.ServerAuth (CertificateRequest.Usage request) = true ->
  KeyUsage.ClientAuth (CertificateRequest.Usage request) = true ->
  GenerateCertificate request issuer r = (Ok cert, r') ->
  exists tpl,
    signedFrom request issuer r cert r' tpl /\
    x509.ExtKeyUsage_ tpl = [] /\
    exists rest,
      KeyUsage.extendedUsage (CertificateRequest.Usage request)
      = x509.ExtKeyUsageServerAuth :: x509.ExtKeyUsageClientAuth :: rest.
Proof.
  intros Hs Hc Hrun. apply GenerateCertificate_Ok in Hrun.
  destruct Hrun as [tpl Hsigned]. exists tpl. split; [exact Hsigned |].
  split.
  - destruct Hsigned as [? ? ? ? ? ? ? ? ? ? ? _ _ _ _ Htpl _ _].
    apply template_fixedFields in Htpl. now inversion Htpl.
  - destruct (CertificateRequest.Usage request)
      as [b1 b2 b3 b4 b5 b6 b7 b8 b9 s c cs ep ts os].
    simpl in Hs, Hc. subst s c. unfold KeyUsage.extendedUsage. simpl.
    destruct cs, ep, ts, os; eexists; reflexivity.
Qed.

(** An instance of C2: the request sets serverAuth and clientAuth. *)
Lemma issued_template_has_no_extended_usage_witness :
  exists cert r' tpl,
    GenerateCertificate (L := Demo.library)
      (Demo.request [] Demo.serverClient false) None Demo.tape = (Ok cert, r') /\
    KeyUsage.extendedUsage Demo.serverClient
      = [x509.ExtKeyUsageServerAuth; x509.ExtKeyUsageClientAuth] /\
    signedFrom (L := Demo.library)
      (Demo.request [] Demo.serverClient false) None Demo.tape cert r' tpl /\
    x509.ExtKeyUsage_ tpl = [].
Proof.
  pose proof (issued_template_has_no_extended_usage
                (H := Demo.library)
                (Demo.request [] Demo.serverClient false) None Demo.tape
                (r' := []) eq_refl eq_refl eq_refl) as (tpl & Hsigned & Hext & _).
  eexists. exists []. exists tpl.
  split; [vm_compute; reflexivity |].
  split; [reflexivity |].
  split; [exact Hsigned | exact Hext].
Defined.

(** C4.  Whatever the request and the issuer, the template has
    [BasicConstraintsValid = true] and [IsCA = false]: when it is made,
    when the statements that fill it have run, and when it is signed.
    For a self-signed certificate the template is also the parent, and
    the returned record nevertheless carries
    [CertificateAuthority = true]. *)
Theorem signed_template_never_asserts_CA `{Library}
    (request : CertificateRequest.t) (issuer : option Certificate.t) :
  (forall serial h,
     x509.BasicConstraintsValid (newTemplate request serial h) = true /\
     x509.IsCA (newTemplate request serial h) = false) /\
  (forall serial h tpl,
     template request issuer serial h = Ok tpl ->
     x509.BasicConstraintsValid tpl = true /\ x509.IsCA tpl = false) /\
  (forall r cert r',
     GenerateCertificate request issuer r = (Ok cert, r') ->
     exists tpl,
       signedFrom request issuer r cert r' tpl /\
       x509.BasicConstraintsValid tpl = true /\
       x509.IsCA tpl = false /\
       (issuer = None -> Certificate.CertificateAuthority cert = true)).
Proof.
  assert (Hfixed : forall serial h tpl,
             template request issuer serial h = Ok tpl ->
             x509.BasicConstraintsValid tpl = true /\ x509.IsCA tpl = false).
  { intros serial h tpl Htpl.
    apply template_fixedFields in Htpl. unfold fixedFields in Htpl.
    injection Htpl as _ Hbc Hca. split; assumption. }
  split; [intros serial h; split; reflexivity |].
  split; [exact Hfixed |].
  intros r cert r' Hrun. apply GenerateCertificate_Ok in Hrun.
  destruct Hrun as [tpl Hsigned]. exists tpl. split; [exact Hsigned |].
  destruct Hsigned as [? ? ? ? ? ? ? ? ? ? ? _ _ _ _ Htpl _ _].
  destruct (Hfixed _ _ _ Htpl) as [Hbc Hca].
  split; [exact Hbc |]. split; [exact Hca |].
  intros ->. reflexivity.
Qed.

(** An instance of C4: a self-signed certificate. *)
Lemma signed_template_never_asserts_CA_witness :
  exists cert r' tpl,
    GenerateCertificate (L := Demo.library)
      (Demo.request [] Demo.noUsage true) None Demo.tape = (Ok cert, r') /\
    signedFrom (L := Demo.library)
      (Demo.request [] Demo.noUsage true) None Demo.tape cert r' tpl /\
    x509.BasicConstraintsValid tpl = true /\
    x509.IsCA tpl = false /\
    Certificate.CertificateAuthority cert = true.
Proof.
  destruct (signed_template_never_asserts_CA
              (H := Demo.library)
              (Demo.request [] Demo.noUsage true) None) as (_ & _ & Hrun).
  destruct (Hrun Demo.tape _ [] eq_refl) as (tpl & Hsigned & Hbc & Hca & Hrec).
  eexists. exists []. exists tpl.
  split; [vm_compute; reflexivity |].
  split; [exact Hsigned |]. split; [exact Hbc |]. split; [exact Hca |].
  exact (Hrec eq_refl).
Defined.

(** ** The alternate names *)

Section AlternateNameFacts.

Context {L : Library}.

Lemma addAlternateName_unknown tpl name :
  known name = false -> addAlternateName tpl name = Ok tpl.
Proof.
  unfold known, knownTypes, addAlternateName. simpl.
  intros H.
  destruct (String.eqb (AlternateName.Type_ name) AlternateNameTypeDNS);
    [discriminate |].
  destruct (String.eqb (AlternateName.Type_ name) AlternateNameTypeEmail);
    [discriminate |].
  destruct (String.eqb (AlternateName.Type_ name) AlternateNameTypeIP);
    [discriminate |].
  destruct (String.eqb (AlternateName.Type_ name) AlternateNameTypeURI);
    [discriminate |].
  reflexivity.
Qed.

Lemma addAlternateNames_app before : forall tpl after,
  addAlternateNames tpl (before ++ after)
  = obind (addAlternateNames tpl before)
      (fun tpl' => addAlternateNames tpl' after).
Proof.
  induction before as [| name rest IH]; simpl; intros tpl after.
  - reflexivity.
  - destruct (addAlternateName tpl name) as [tpl1 | e | e]; simpl;
      [apply IH | reflexivity | reflexivity].
Qed.

Lemma addAlternateNames_skip tpl before name after :
  known name = false ->
  addAlternateNames tpl (before ++ name :: after)
  = addAlternateNames tpl (before ++ after).
Proof.
  intros Hname. rewrite !addAlternateNames_app.
  destruct (addAlternateNames tpl before) as [tpl1 | e | e]; simpl;
    try reflexivity.
  now rewrite (addAlternateName_unknown _ _ Hname).
Qed.

(** What one entry does: a new template, or the error of that entry;
    the loop body does not panic. *)
Lemma addAlternateName_cases tpl name :
  (exists tpl', addAlternateName tpl name = Ok tpl') \/
  (exists e, addAlternateName tpl name = Err e /\ invalidName name e).
Proof.
  unfold addAlternateName, invalidName.
  destruct (String.eqb (AlternateName.Type_ name) AlternateNameTypeDNS);
    [left; eexists; reflexivity |].
  destruct (String.eqb (AlternateName.Type_ name) AlternateNameTypeEmail);
    [left; eexists; reflexivity |].
  destruct (String.eqb_spec (AlternateName.Type_ name) AlternateNameTypeIP)
    as [Hip | _].
  { destruct (ParseIP (AlternateName.Value name)) as [ip |] eqn:Hparse.
    - left; eexists; reflexivity.
    - right; eexists; split; [reflexivity |]. left. auto. }
  destruct (String.eqb_spec (AlternateName.Type_ name) AlternateNameTypeURI)
    as [Huri | _].
  { destruct (url_Parse (AlternateName.Value name)) as [u | e] eqn:Hparse.
    - left; eexists; reflexivity.
    - right; exists e; split; [reflexivity |]. right. auto. }
  left; eexists; reflexivity.
Qed.

Lemma addAlternateName_bad_ip tpl name :
  AlternateName.Type_ name = AlternateNameTypeIP ->
  ParseIP (AlternateName.Value name) = None ->
  addAlternateName tpl name
  = Err (Errorf ("invalid ip address " ++ AlternateName.Value name)).
Proof.
  intros Hty Hparse. unfold addAlternateName. rewrite Hty, Hparse.
  reflexivity.
Qed.

(** A request with an ip entry that does not parse makes the loop
    return the error of one of its entries. *)
Lemma addAlternateNames_bad_ip names : forall tpl name,
  In name names ->
  AlternateName.Type_ name = AlternateNameTypeIP ->
  ParseIP (AlternateName.Value name) = None ->
  exists e, addAlternateNames tpl names = Err e /\
            invalidAlternateName names e.
Proof.
  induction names as [| head rest IH]; intros tpl name Hin Hty Hparse.
  - destruct Hin.
  - simpl.
    destruct (addAlternateName_cases tpl head) as [[tpl' Hok] | [e [Herr Hinv]]].
    + rewrite Hok. simpl.
      destruct Hin as [-> | Hin].
      * rewrite (addAlternateName_bad_ip _ _ Hty Hparse) in Hok. discriminate.
      * destruct (IH tpl' name Hin Hty Hparse) as (e & He & name' & Hin' & Hinv).
        exists e. split; [exact He |].
        exists name'. split; [right; exact Hin' | exact Hinv].
    + rewrite Herr. simpl. exists e. split; [reflexivity |].
      exists head. split; [left; reflexivity | exact Hinv].
Qed.

Lemma template_Ok request issuer serial h tpl :
  template request issuer serial h = Ok tpl ->
  exists tpl0 tpl1,
    setIssuer (newTemplate request serial h) issuer = Ok tpl0 /\
    addAlternateNames tpl0 (CertificateRequest.AlternateNames request)
      = Ok tpl1 /\
    tpl = setStatusProviders tpl1 (CertificateRequest.StatusProviders request).
Proof.
  unfold template. intros H.
  apply obind_Ok in H. destruct H as (tpl0 & H0 & H).
  apply obind_Ok in H. destruct H as (tpl1 & H1 & H).
  inversion H. exists tpl0, tpl1. auto.
Qed.

End AlternateNameFacts.

(** C6.  Let the request hold an alternate name of type ip whose value
    is not an IP address.  Then [GenerateCertificate] returns no
    certificate, on any tape and with any issuer; and when the steps
    before the loop succeed (key, serial, encodings of the key, decoding
    of the issuer), it returns the error of an alternate name of the
    request that does not parse. *)
Theorem unparsable_ip_aborts_issuance `{Library}
    (request : CertificateRequest.t) (issuer : option Certificate.t)
    (r : Reader) (name : AlternateName.t) :
  In name (CertificateRequest.AlternateNames request) ->
  AlternateName.Type_ name = AlternateNameTypeIP ->
  ParseIP (AlternateName.Value name) = None ->
  (forall cert r', GenerateCertificate request issuer r <> (Ok cert, r')) /\
  (forall r2, prepared request issuer r r2 ->
     exists e,
       GenerateCertificate request issuer r = (Err e, r2) /\
       invalidAlternateName (CertificateRequest.AlternateNames request) e).
Proof.
  intros Hin Hty Hparse. split.
  - intros cert r' Hrun. apply GenerateCertificate_Ok in Hrun.
    destruct Hrun as [tpl Hsigned].
    destruct Hsigned as [? ? ? ? ? ? ? ? ? ? ? _ _ _ _ Htpl _ _].
    apply template_Ok in Htpl. destruct Htpl as (tpl0 & tpl1 & _ & Hloop & _).
    destruct (addAlternateNames_bad_ip _ tpl0 _ Hin Hty Hparse) as (e & He & _).
    rewrite He in Hloop. discriminate.
  - intros r2 (pKey & r1 & serial & pKeyBytes & publicKeyBytes & tpl0 &
               HpKey & Hserial & Hkb & Hpb & Hissuer).
    destruct (addAlternateNames_bad_ip _ tpl0 _ Hin Hty Hparse) as (e & He & Hinv).
    exists e. split; [| exact Hinv].
    unfold GenerateCertificate, bind, pure.
    rewrite HpKey, Hserial, Hkb, Hpb. simpl.
    unfold template. rewrite Hissuer. simpl. rewrite He. reflexivity.
Qed.

(** An instance of C6: a dns entry, then an ip entry that is no address. *)
Lemma unparsable_ip_aborts_issuance_witness :
  prepared (L := Demo.library)
    (Demo.request [Demo.alt "dns" "a.example"; Demo.alt "ip" "not-an-ip"]
       Demo.noUsage false) None Demo.tape [] /\
  (forall cert r',
     GenerateCertificate (L := Demo.library)
       (Demo.request [Demo.alt "dns" "a.example"; Demo.alt "ip" "not-an-ip"]
          Demo.noUsage false) None Demo.tape <> (Ok cert, r')) /\
  (exists e,
     GenerateCertificate (L := Demo.library)
       (Demo.request [Demo.alt "dns" "a.example"; Demo.alt "ip" "not-an-ip"]
          Demo.noUsage false) None Demo.tape = (Err e, []) /\
     invalidAlternateName (L := Demo.library)
       [Demo.alt "dns" "a.example"; Demo.alt "ip" "not-an-ip"] e) /\
  GenerateCertificate (L := Demo.library)
    (Demo.request [Demo.alt "dns" "a.example"; Demo.alt "ip" "not-an-ip"]
       Demo.noUsage false) None Demo.tape
  = (Err (Errorf "invalid ip address not-an-ip"), []).
Proof.
  assert (Hprep : prepared (L := Demo.library)
                    (Demo.request
                       [Demo.alt "dns" "a.example"; Demo.alt "ip" "not-an-ip"]
                       Demo.noUsage false) None Demo.tape []).
  { unfold prepared. do 6 eexists.
    split; [vm_compute; reflexivity |].
    split; [vm_compute; reflexivity |].
    split; [reflexivity |]. split; reflexivity. }
  pose proof (unparsable_ip_aborts_issuance
                (H := Demo.library)
                (Demo.request [Demo.alt "dns" "a.example"; Demo.alt "ip" "not-an-ip"]
                   Demo.noUsage false) None Demo.tape
                (Demo.alt "ip" "not-an-ip")
                (or_intror (or_introl eq_refl)) eq_refl eq_refl) as [Hnone Herr].
  split; [exact Hprep |]. split; [exact Hnone |].
  split; [exact (Herr [] Hprep) | vm_compute; reflexivity].
Defined.

(** C6, the claim refuted.  The request holds an ip entry that is no
    address.  With an issuer record that has lost a byte, the call panics
    at the decoding of the issuer, before the alternate names are looked
    at; with an empty random source, it returns the error of the key
    generation.  Neither is the error of an alternate name. *)
Lemma unparsable_ip_is_not_always_reported :
  @ParseIP Demo.library "not-an-ip" = None /\
  GenerateCertificate (L := Demo.library)
    (Demo.request [Demo.alt "ip" "not-an-ip"] Demo.noUsage false)
    (Some Demo.truncated) Demo.tape
  = (Panic ErrLength, []) /\
  GenerateCertificate (L := Demo.library)
    (Demo.request [Demo.alt "ip" "not-an-ip"] Demo.noUsage false)
    None []
  = (Err io.EOF, []) /\
  ~ invalidAlternateName (L := Demo.library)
      [Demo.alt "ip" "not-an-ip"] io.EOF.
Proof.
  split; [reflexivity |].
  split; [vm_compute; reflexivity |].
  split; [vm_compute; reflexivity |].
  intros (name & Hin & Hinv).
  destruct Hin as [<- | []].
  destruct Hinv as [(_ & _ & He) | (Hty & _)]; discriminate.
Qed.

(** C7.  An alternate name whose type is none of dns, email, ip, uri is
    skipped: the loop body returns the template unchanged and no error;
    the template, and the whole result of [GenerateCertificate], are
    those of the request without the entry, so that issuance succeeds
    whenever it succeeds without it. *)
Theorem unknown_type_is_skipped `{Library}
    (request : CertificateRequest.t) (issuer : option Certificate.t)
    (r : Reader) (before after : list AlternateName.t)
    (name : AlternateName.t) :
  CertificateRequest.AlternateNames request = (before ++ name :: after)%list ->
  known name = false ->
  (forall tpl, addAlternateName tpl name = Ok tpl) /\
  (forall serial h,
     template request issuer serial h
     = template (withAlternateNames request (before ++ after)) issuer serial h) /\
  GenerateCertificate request issuer r
  = GenerateCertificate (withAlternateNames request (before ++ after)) issuer r.
Proof.
  intros Hnames Hname.
  assert (Htpl : forall serial h,
             template request issuer serial h
             = template (withAlternateNames request (before ++ after))
                 issuer serial h).
  { intros serial h. unfold template, newTemplate. simpl.
    rewrite Hnames.
    destruct (setIssuer _ issuer) as [tpl0 | e | e]; simpl; try reflexivity.
    now rewrite (addAlternateNames_skip _ _ _ _ Hname). }
  split; [intros tpl; apply addAlternateName_unknown; exact Hname |].
  split; [exact Htpl |].
  unfold GenerateCertificate, bind.
  destruct (generateKey r) as [[pKey | e | e] r1]; try reflexivity.
  destruct (randomSerialNumber r1) as [[serial | e | e] r2]; try reflexivity.
  destruct (pure (try (MarshalPKCS8PrivateKey pKey)) r2)
    as [[pKeyBytes | e | e] r3]; try reflexivity.
  destruct (pure (try (MarshalPKIXPublicKey (Public pKey))) r3)
    as [[publicKeyBytes | e | e] r4]; try reflexivity.
  rewrite Htpl. reflexivity.
Qed.

(** An instance of C7: an entry of type carrier-pigeon between two
    entries of known types. *)
Lemma unknown_type_is_skipped_witness :
  exists cert,
    GenerateCertificate (L := Demo.library)
      (Demo.request
         [Demo.alt "dns" "a.example"; Demo.alt "carrier-pigeon" "x";
          Demo.alt "ip" "10.0.0.1"] Demo.noUsage false) None Demo.tape
    = (Ok cert, []) /\
    GenerateCertificate (L := Demo.library)
      (Demo.request [Demo.alt "dns" "a.example"; Demo.alt "ip" "10.0.0.1"]
         Demo.noUsage false) None Demo.tape
    = (Ok cert, []).
Proof.
  pose proof (unknown_type_is_skipped
                (H := Demo.library)
                (Demo.request
                   [Demo.alt "dns" "a.example"; Demo.alt "carrier-pigeon" "x";
                    Demo.alt "ip" "10.0.0.1"] Demo.noUsage false)
                None Demo.tape
                [Demo.alt "dns" "a.example"] [Demo.alt "ip" "10.0.0.1"]
                (Demo.alt "carrier-pigeon" "x") eq_refl eq_refl)
    as (_ & _ & Hsame).
  eexists. split.
  - rewrite Hsame. vm_compute. reflexivity.
  - vm_compute. reflexivity.
Defined.

Section Grouping.

Context {L : Library}.

Lemma valuesOf_cons ty name rest :
  valuesOf ty (name :: rest) = (valuesOf ty [name] ++ valuesOf ty rest)%list.
Proof.
  unfold valuesOf. simpl. destruct (hasType ty name); reflexivity.
Qed.

(** The effect of one entry on the four lists. *)
Lemma addAlternateName_lists tpl name tpl' :
  addAlternateName tpl name = Ok tpl' ->
  x509.DNSNames tpl'
    = (x509.DNSNames tpl ++ valuesOf AlternateNameTypeDNS [name])%list /\
  x509.EmailAddresses tpl'
    = (x509.EmailAddresses tpl ++ valuesOf AlternateNameTypeEmail [name])%list /\
  map Some (x509.IPAddresses tpl')
    = (map Some (x509.IPAddresses tpl)
       ++ map ParseIP (valuesOf AlternateNameTypeIP [name]))%list /\
  map inl (x509.URIs tpl')
    = (map inl (x509.URIs tpl)
       ++ map url_Parse (valuesOf AlternateNameTypeURI [name]))%list.
Proof.
  unfold addAlternateName, valuesOf, hasType. simpl.
  destruct (String.eqb_spec (AlternateName.Type_ name) AlternateNameTypeDNS)
    as [Hty | _].
  { rewrite Hty. intros Hok; inversion Hok; subst; simpl.
    rewrite !app_nil_r. auto. }
  destruct (String.eqb_spec (AlternateName.Type_ name) AlternateNameTypeEmail)
    as [Hty | _].
  { rewrite Hty. intros Hok; inversion Hok; subst; simpl.
    rewrite !app_nil_r. auto. }
  destruct (String.eqb_spec (AlternateName.Type_ name) AlternateNameTypeIP)
    as [Hty | _].
  { rewrite Hty.
    destruct (ParseIP (AlternateName.Value name)) as [ip |] eqn:Hparse;
      intros Hok; inversion Hok; subst; simpl.
    rewrite !app_nil_r, map_app, Hparse. auto. }
  destruct (String.eqb_spec (AlternateName.Type_ name) AlternateNameTypeURI)
    as [Hty | _].
  { destruct (url_Parse (AlternateName.Value name)) as [u | e] eqn:Hparse;
      intros Hok; inversion Hok; subst; simpl.
    rewrite !app_nil_r, map_app, Hparse. auto. }
  intros Hok; inversion Hok; subst; simpl. rewrite !app_nil_r. auto.
Qed.

Lemma addAlternateNames_lists names : forall tpl tpl',
  addAlternateNames tpl names = Ok tpl' ->
  x509.DNSNames tpl'
    = (x509.DNSNames tpl ++ valuesOf AlternateNameTypeDNS names)%list /\
  x509.EmailAddresses tpl'
    = (x509.EmailAddresses tpl ++ valuesOf AlternateNameTypeEmail names)%list /\
  map Some (x509.IPAddresses tpl')
    = (map Some (x509.IPAddresses tpl)
       ++ map ParseIP (valuesOf AlternateNameTypeIP names))%list /\
  map inl (x509.URIs tpl')
    = (map inl (x509.URIs tpl)
       ++ map url_Parse (valuesOf AlternateNameTypeURI names))%list.
Proof.
  induction names as [| name rest IH]; intros tpl tpl' Hloop.
  - simpl in Hloop. inversion Hloop; subst. unfold valuesOf; simpl.
    rewrite !app_nil_r. auto.
  - simpl in Hloop. apply obind_Ok in Hloop.
    destruct Hloop as (tpl1 & Hone & Hrest).
    destruct (addAlternateName_lists _ _ Hone) as (D1 & E1 & I1 & U1).
    destruct (IH _ _ Hrest) as (D & E & I & U).
    rewrite (valuesOf_cons AlternateNameTypeDNS name rest),
      (valuesOf_cons AlternateNameTypeEmail name rest),
      (valuesOf_cons AlternateNameTypeIP name rest),
      (valuesOf_cons AlternateNameTypeURI name rest).
    rewrite D, E, I, U, D1, E1, I1, U1.
    rewrite !map_app, <- !app_assoc. repeat split; reflexivity.
Qed.

Lemma addAlternateNames_total names : forall tpl,
  forallb parses names = true ->
  exists tpl', addAlternateNames tpl names = Ok tpl'.
Proof.
  induction names as [| name rest IH]; simpl; intros tpl Hall.
  - eexists; reflexivity.
  - apply andb_true_iff in Hall. destruct Hall as [Hname Hrest].
    destruct (addAlternateName_cases tpl name) as [[tpl' Hok] | [e [_ Hinv]]].
    + rewrite Hok. simpl. apply IH. exact Hrest.
    + exfalso. unfold parses, hasType in Hname.
      destruct Hinv as [(Hty & Hparse & _) | (Hty & Hparse)];
        rewrite Hty in Hname; simpl in Hname; rewrite Hparse in Hname;
        discriminate.
Qed.

Lemma setIssuer_nameLists tpl issuer tpl' :
  setIssuer tpl issuer = Ok tpl' -> nameLists tpl' = nameLists tpl.
Proof.
  unfold setIssuer. destruct issuer as [i |].
  - intros H. apply obind_Ok in H. destruct H as (x & _ & H).
    inversion H; reflexivity.
  - intros H. inversion H; reflexivity.
Qed.

Lemma setStatusProviders_nameLists tpl p :
  nameLists (setStatusProviders tpl p) = nameLists tpl.
Proof.
  unfold setStatusProviders.
  destruct (StatusProviders.CRL p), (StatusProviders.OCSP p); reflexivity.
Qed.

Lemma template_grouped request issuer serial h tpl :
  template request issuer serial h = Ok tpl ->
  grouped (CertificateRequest.AlternateNames request) tpl.
Proof.
  intros Htpl. apply template_Ok in Htpl.
  destruct Htpl as (tpl0 & tpl1 & Hissuer & Hloop & ->).
  apply setIssuer_nameLists in Hissuer.
  apply addAlternateNames_lists in Hloop.
  pose proof (setStatusProviders_nameLists tpl1
                (CertificateRequest.StatusProviders request)) as Hsp.
  unfold nameLists in Hissuer, Hsp. simpl in Hissuer.
  injection Hissuer as D0 E0 I0 U0. injection Hsp as Ds Es Is Us.
  destruct Hloop as (D & E & I & U).
  unfold grouped. rewrite Ds, Es, Is, Us, D, E, I, U, D0, E0, I0, U0.
  simpl. auto.
Qed.

(** After the key material, what is left of [GenerateCertificate]. *)
Lemma GenerateCertificate_keyed request issuer r pKey serial pKeyBytes
    publicKeyBytes r2 :
  keyed r pKey serial pKeyBytes publicKeyBytes r2 ->
  GenerateCertificate request issuer r
  = bind (pure (template request issuer serial (sha1_Sum publicKeyBytes)))
      (fun tpl =>
         bind (sign tpl issuer (Public pKey) pKey)
           (fun certBytes =>
              ret {| Certificate.Serial := big.String serial;
                     Certificate.CertificateAuthority := isNil issuer;
                     Certificate.KeyData := hex.EncodeToString pKeyBytes;
                     Certificate.Subject := CertificateRequest.Subject request;
                     Certificate.CertificateData :=
                       hex.EncodeToString certBytes |})) r2.
Proof.
  intros (r1 & HpKey & Hserial & Hkb & Hpb).
  unfold GenerateCertificate, bind at 1 2 3 4, pure at 1 2.
  rewrite HpKey, Hserial, Hkb, Hpb. reflexivity.
Qed.

Lemma prepared_keyed request issuer r r2 :
  prepared request issuer r r2 ->
  exists pKey serial pKeyBytes publicKeyBytes tpl0,
    keyed r pKey serial pKeyBytes publicKeyBytes r2 /\
    setIssuer (newTemplate request serial (sha1_Sum publicKeyBytes)) issuer
    = Ok tpl0.
Proof.
  intros (pKey & r1 & serial & pKeyBytes & publicKeyBytes & tpl0 &
          HpKey & Hserial & Hkb & Hpb & Hissuer).
  exists pKey, serial, pKeyBytes, publicKeyBytes, tpl0.
  split; [exists r1; auto | exact Hissuer].
Qed.

Lemma sign_of_signer tpl issuer pKey parent key r certBytes r' :
  signer issuer tpl pKey = Ok (parent, key) ->
  CreateCertificate tpl parent (Public pKey) key r = (inl certBytes, r') ->
  sign tpl issuer (Public pKey) pKey r = (Ok certBytes, r').
Proof.
  unfold signer, sign. destruct issuer as [i |]; intros Hsigner Hcreate.
  - apply obind_Ok in Hsigner. destruct Hsigner as (x & Hx & Hsigner).
    apply obind_Ok in Hsigner. destruct Hsigner as (k & Hk & Hsigner).
    inversion Hsigner; subst.
    unfold bind, pure. rewrite Hx, Hk, Hcreate. reflexivity.
  - inversion Hsigner; subst. rewrite Hcreate. reflexivity.
Qed.

(** When every step succeeds, [GenerateCertificate] returns the record. *)
Lemma signedFrom_returns request issuer r cert r' tpl :
  signedFrom request issuer r cert r' tpl ->
  GenerateCertificate request issuer r = (Ok cert, r').
Proof.
  intros Hsigned.
  destruct Hsigned
    as [pKey r1 serial r2 pKeyBytes publicKeyBytes tpl parent key certBytes r'
        HpKey Hserial Hkb Hpb Htpl Hsigner Hcreate].
  assert (Hkeyed : keyed r pKey serial pKeyBytes publicKeyBytes r2)
    by (exists r1; auto).
  rewrite (GenerateCertificate_keyed request issuer Hkeyed).
  unfold bind at 1, pure. rewrite Htpl. unfold bind.
  rewrite sign_of_signer with (parent := parent) (key := key)
                              (certBytes := certBytes) (r' := r')
    by assumption.
  reflexivity.
Qed.

End Grouping.

(** C8.  When every ip and uri entry of the request parses, the loop
    succeeds on any template it starts from, and the template has, in
    its DNS, email, IP and URI lists, the values of the request's entries
    of that type (parsed for ip and uri), in the order of the request and
    nothing else.  The same holds of the template of every certificate
    that [GenerateCertificate] returns.  And [GenerateCertificate] does
    return one: when the steps before the loop succeed, the template
    with these four lists reaches the signing step, and when the issuer
    key decodes and [x509.CreateCertificate] signs, the record made from
    the signed bytes is returned. *)
Theorem alternate_names_grouped_in_input_order `{Library}
    (request : CertificateRequest.t) (issuer : option Certificate.t) :
  forallb parses (CertificateRequest.AlternateNames request) = true ->
  (forall serial h tpl0,
     setIssuer (newTemplate request serial h) issuer = Ok tpl0 ->
     exists tpl,
       template request issuer serial h = Ok tpl /\
       grouped (CertificateRequest.AlternateNames request) tpl) /\
  (forall r cert r',
     GenerateCertificate request issuer r = (Ok cert, r') ->
     exists tpl,
       signedFrom request issuer r cert r' tpl /\
       grouped (CertificateRequest.AlternateNames request) tpl) /\
  (forall r r2,
     prepared request issuer r r2 ->
     exists pKey serial pKeyBytes tpl,
       grouped (CertificateRequest.AlternateNames request) tpl /\
       forall parent key certBytes r',
         signer issuer tpl pKey = Ok (parent, key) ->
         CreateCertificate tpl parent (Public pKey) key r2
         = (inl certBytes, r') ->
         GenerateCertificate request issuer r
         = (Ok {| Certificate.Serial := big.String serial;
                  Certificate.CertificateAuthority := isNil issuer;
                  Certificate.KeyData := hex.EncodeToString pKeyBytes;
                  Certificate.Subject := CertificateRequest.Subject request;
                  Certificate.CertificateData :=
                    hex.EncodeToString certBytes |}, r') /\
         signedFrom request issuer r
           {| Certificate.Serial := big.String serial;
              Certificate.CertificateAuthority := isNil issuer;
              Certificate.KeyData := hex.EncodeToString pKeyBytes;
              Certificate.Subject := CertificateRequest.Subject request;
              Certificate.CertificateData := hex.EncodeToString certBytes |}
           r' tpl).
Proof.
  intros Hall.
  assert (Hloop : forall serial h tpl0,
             setIssuer (newTemplate request serial h) issuer = Ok tpl0 ->
             exists tpl,
               template request issuer serial h = Ok tpl /\
               grouped (CertificateRequest.AlternateNames request) tpl).
  { intros serial h tpl0 Hissuer.
    destruct (addAlternateNames_total _ tpl0 Hall) as [tpl1 Hl].
    assert (Htpl : template request issuer serial h
                   = Ok (setStatusProviders tpl1
                           (CertificateRequest.StatusProviders request))).
    { unfold template. rewrite Hissuer. simpl. rewrite Hl. reflexivity. }
    eexists. split; [exact Htpl |].
    eapply template_grouped; exact Htpl. }
  split; [exact Hloop |]. split.
  - intros r cert r' Hrun. apply GenerateCertificate_Ok in Hrun.
    destruct Hrun as [tpl Hsigned]. exists tpl. split; [exact Hsigned |].
    destruct Hsigned as [? ? ? ? ? ? ? ? ? ? ? _ _ _ _ Htpl _ _].
    eapply template_grouped; exact Htpl.
  - intros r r2 (pKey & r1 & serial & pKeyBytes & publicKeyBytes & tpl0 &
                 HpKey & Hserial & Hkb & Hpb & Hissuer).
    destruct (Hloop _ _ _ Hissuer) as (tpl & Htpl & Hgrouped).
    exists pKey, serial, pKeyBytes, tpl. split; [exact Hgrouped |].
    intros parent key certBytes r' Hsigner Hcreate.
    assert (Hsigned :
              signedFrom request issuer r
                {| Certificate.Serial := big.String serial;
                   Certificate.CertificateAuthority := isNil issuer;
                   Certificate.KeyData := hex.EncodeToString pKeyBytes;
                   Certificate.Subject := CertificateRequest.Subject request;
                   Certificate.CertificateData :=
                     hex.EncodeToString certBytes |} r' tpl)
      by (econstructor; eassumption).
    split; [apply signedFrom_returns with (tpl := tpl); exact Hsigned
           | exact Hsigned].
Qed.

(** An instance of C8: six entries of four types, interleaved, go
    through [GenerateCertificate]; a certificate is returned, and the
    template that was signed has the entries regrouped by type. *)
Lemma alternate_names_grouped_in_input_order_witness :
  exists cert (tpl : @Template Demo.library),
    GenerateCertificate (L := Demo.library)
      (Demo.request
         [Demo.alt "ip" "10.0.0.1"; Demo.alt "dns" "a.example";
          Demo.alt "uri" "http://x"; Demo.alt "email" "me@a.example";
          Demo.alt "dns" "b.example"; Demo.alt "ip" "1.2.3.4"]
         Demo.noUsage false) None Demo.tape = (Ok cert, []) /\
    Certificate.Serial cert = "256" /\
    signedFrom (L := Demo.library)
      (Demo.request
         [Demo.alt "ip" "10.0.0.1"; Demo.alt "dns" "a.example";
          Demo.alt "uri" "http://x"; Demo.alt "email" "me@a.example";
          Demo.alt "dns" "b.example"; Demo.alt "ip" "1.2.3.4"]
         Demo.noUsage false) None Demo.tape cert [] tpl /\
    x509.DNSNames tpl = ["a.example"; "b.example"] /\
    x509.EmailAddresses tpl = ["me@a.example"] /\
    x509.IPAddresses tpl = [[x0a; x00; x00; x01]; [x01; x02; x03; x04]] /\
    x509.URIs tpl = ["http://x"].
Proof.
  destruct (alternate_names_grouped_in_input_order
              (H := Demo.library)
              (Demo.request
                 [Demo.alt "ip" "10.0.0.1"; Demo.alt "dns" "a.example";
                  Demo.alt "uri" "http://x"; Demo.alt "email" "me@a.example";
                  Demo.alt "dns" "b.example"; Demo.alt "ip" "1.2.3.4"]
                 Demo.noUsage false) None eq_refl) as (_ & _ & Hissue).
  assert (Hprep : prepared (L := Demo.library)
                    (Demo.request
                       [Demo.alt "ip" "10.0.0.1"; Demo.alt "dns" "a.example";
                        Demo.alt "uri" "http://x";
                        Demo.alt "email" "me@a.example";
                        Demo.alt "dns" "b.example"; Demo.alt "ip" "1.2.3.4"]
                       Demo.noUsage false) None Demo.tape []).
  { unfold prepared. do 6 eexists.
    split; [vm_compute; reflexivity |].
    split; [vm_compute; reflexivity |].
    split; [reflexivity |]. split; reflexivity. }
  destruct (Hissue Demo.tape [] Hprep)
    as (pKey & serial & pKeyBytes & tpl & (D & E & I & U) & Hrun).
  destruct (Hrun tpl pKey
              (x30 :: Demo.bytes_of_string (pkix.CommonName (x509.Subject tpl)))
              [] eq_refl eq_refl) as [Hret Hsigned].
  assert (Hval : GenerateCertificate (L := Demo.library)
                   (Demo.request
                      [Demo.alt "ip" "10.0.0.1"; Demo.alt "dns" "a.example";
                       Demo.alt "uri" "http://x";
                       Demo.alt "email" "me@a.example";
                       Demo.alt "dns" "b.example"; Demo.alt "ip" "1.2.3.4"]
                      Demo.noUsage false) None Demo.tape
                 = (Ok {| Certificate.Serial := "256";
                          Certificate.Subject := Demo.subject;
                          Certificate.CertificateAuthority := true;
                          Certificate.CertificateData :=
                            "306c6561662e6578616d706c652e636f6d";
                          Certificate.KeyData := "01020304" |}, []))
    by (vm_compute; reflexivity).
  rewrite Hval in Hret.
  match type of Hsigned with
  | signedFrom _ _ _ ?c _ _ =>
      assert (Hcert : c = {| Certificate.Serial := "256";
                             Certificate.Subject := Demo.subject;
                             Certificate.CertificateAuthority := true;
                             Certificate.CertificateData :=
                               "306c6561662e6578616d706c652e636f6d";
                             Certificate.KeyData := "01020304" |})
        by exact (f_equal
                    (fun p : outcome Certificate.t * Reader =>
                       match fst p with Ok x => x | _ => c end)
                    (eq_sym Hret));
      rewrite Hcert in Hsigned
  end.
  eexists. exists tpl.
  split; [exact Hval |]. split; [reflexivity |]. split; [exact Hsigned |].
  split; [exact D |]. split; [exact E |].
  split.
  - apply (f_equal (map (fun o : option bytes =>
                           match o with Some ip => ip | None => [] end))) in I.
    rewrite map_map, map_id in I. exact I.
  - apply (f_equal (map (fun o : result string =>
                           match o with inl u => u | inr _ => "" end))) in U.
    rewrite map_map, map_id in U. exact U.
Defined.

(** ** The serial number *)

Lemma SetBytes_app (b : bytes) (x : byte) :
  big.SetBytes (b ++ [x])%list = big.SetBytes b * 256 + Z.of_N (Byte.to_N x).
Proof. unfold big.SetBytes. now rewrite fold_left_app. Qed.

Lemma byte_range (x : byte) : 0 <= Z.of_N (Byte.to_N x) < 256.
Proof. pose proof (Byte.to_N_bounded x). lia. Qed.

Lemma SetBytes_bound (b : bytes) :
  0 <= big.SetBytes b < 256 ^ Z.of_nat (List.length b).
Proof.
  induction b as [| x b IH] using rev_ind.
  - simpl. unfold big.SetBytes. simpl. lia.
  - rewrite SetBytes_app, length_app, Nat.add_comm. simpl List.length.
    rewrite Nat2Z.inj_succ, Z.pow_succ_r by lia.
    pose proof (byte_range x). lia.
Qed.

Lemma to_N_byte_of (m : N) : (m < 256)%N -> Byte.to_N (hex.byte_of m) = m.
Proof.
  intros Hm. unfold hex.byte_of.
  destruct (Byte.of_N m) as [y |] eqn:Hy.
  - now apply Byte.to_of_N.
  - apply Byte.of_N_None_iff in Hy. lia.
Qed.

Lemma byte_of_to_N (x : byte) : hex.byte_of (Byte.to_N x) = x.
Proof. unfold hex.byte_of. now rewrite Byte.of_to_N. Qed.

Lemma toBytes_length (k : nat) : forall n, List.length (toBytes k n) = k.
Proof.
  induction k as [| k IH]; intros n; simpl.
  - reflexivity.
  - rewrite length_app, IH. simpl. lia.
Qed.

Lemma SetBytes_toBytes (k : nat) : forall n,
  0 <= n < 256 ^ Z.of_nat k -> big.SetBytes (toBytes k n) = n.
Proof.
  induction k as [| k IH]; intros n Hn.
  - simpl in *. unfold big.SetBytes. simpl. lia.
  - cbn [toBytes]. rewrite SetBytes_app.
    rewrite Nat2Z.inj_succ, Z.pow_succ_r in Hn by lia.
    rewrite IH.
    + rewrite to_N_byte_of.
      * rewrite Z2N.id by (apply Z.mod_pos_bound; lia).
        pose proof (Z.div_mod n 256). lia.
      * pose proof (Z.mod_pos_bound n 256). lia.
    + split.
      * apply Z.div_pos; lia.
      * apply Z.div_lt_upper_bound; lia.
Qed.

Lemma toBytes_SetBytes (b : bytes) : toBytes (List.length b) (big.SetBytes b) = b.
Proof.
  induction b as [| x b IH] using rev_ind.
  - reflexivity.
  - rewrite SetBytes_app, length_app, Nat.add_comm. cbn [List.length Nat.add toBytes].
    pose proof (byte_range x) as Hx.
    replace ((big.SetBytes b * 256 + Z.of_N (Byte.to_N x)) / 256)
      with (big.SetBytes b)
      by (apply Z.div_unique with (r := Z.of_N (Byte.to_N x)); lia).
    replace ((big.SetBytes b * 256 + Z.of_N (Byte.to_N x)) mod 256)
      with (Z.of_N (Byte.to_N x))
      by (apply Z.mod_unique with (q := big.SetBytes b); lia).
    now rewrite IH, N2Z.id, byte_of_to_N.
Qed.

(** The mask of [rand.Int] keeps a whole byte when [b = 8]. *)
Lemma mask_whole_byte (x : byte) :
  hex.byte_of (N.land (Byte.to_N x) (Z.to_N (Z.shiftl 1 8 - 1))) = x.
Proof. destruct x; vm_compute; reflexivity. Qed.

(** A value that the loop of [rand.Int] returns lies in [[0, max)]. *)
Lemma IntLoop_range (fuel : nat) : forall k b max r n r',
  rand.IntLoop fuel k b max r = (inl n, r') -> 0 <= n < max.
Proof.
  induction fuel as [| fuel IH]; intros k b max r n r' H.
  - discriminate.
  - cbn [rand.IntLoop] in H.
    destruct (io.ReadFull k r) as [[buf | e] r1]; [| discriminate].
    match type of H with
    | (if ?n0 <? max then _ else _) = _ =>
        destruct (Z.ltb_spec n0 max) as [Hlt | _];
        [ assert (Hn : 0 <= n0) by apply SetBytes_bound | ]
    end.
    + inversion H; subst. split; assumption.
    + eapply IH; eassumption.
Qed.

Lemma rand_Int_range (max : Z) (r r' : Reader) (n : Z) :
  rand.Int max r = (Ok n, r') -> 0 <= n < max.
Proof.
  unfold rand.Int.
  destruct (Z.leb_spec max 0) as [| Hmax]; [discriminate |].
  destruct (big.BitLen (max - 1) =? 0).
  - intros H. inversion H; subst. lia.
  - destruct (rand.IntLoop _ _ _ _ _) as [[m | e] r1] eqn:Hloop;
      [| discriminate].
    intros H. inversion H; subst. eapply IntLoop_range; eassumption.
Qed.

(** With the limit [1 << 128], the serial is the first sixteen bytes of
    the random source, read as a big-endian number; no candidate is
    rejected. *)
Lemma randomSerialNumber_draw (r : Reader) :
  (16 <= List.length r)%nat ->
  randomSerialNumber r = (Ok (big.SetBytes (firstn 16 r)), skipn 16 r).
Proof.
  intros Hlen.
  unfold randomSerialNumber.
  assert (Hint : rand.Int (Z.shiftl 1 128) r
                 = match rand.IntLoop (S (List.length r)) 16 8 (2 ^ 128) r with
                   | (inl n, r') => (Ok n, r')
                   | (inr e, r') => (Err e, r')
                   end) by reflexivity.
  rewrite Hint. cbn [rand.IntLoop]. unfold io.ReadFull.
  apply Nat.leb_le in Hlen as Hleb. rewrite Hleb.
  assert (Hbuf : List.length (firstn 16 r) = 16%nat)
    by (apply firstn_length_le; exact Hlen).
  destruct (firstn 16 r) as [| b0 rest] eqn:Hfirst; [discriminate |].
  rewrite mask_whole_byte.
  pose proof (SetBytes_bound (b0 :: rest)) as Hb. rewrite Hbuf in Hb.
  change (256 ^ Z.of_nat 16) with (2 ^ 128) in Hb.
  destruct (Z.ltb_spec (big.SetBytes (b0 :: rest)) (2 ^ 128)); [reflexivity | lia].
Qed.

Lemma serialNumber_String (n : Z) : serialNumber (big.String n) = Some n.
Proof.
  unfold serialNumber, big.String.
  rewrite NilZero.isi.
  - simpl. now rewrite DecimalZ.of_to.
  - destruct n; simpl; try discriminate.
    intros [= Hp]. now apply (DecimalPos.Unsigned.to_uint_nonnil p).
  - destruct n; simpl; try discriminate.
    intros [= Hp]. now apply (DecimalPos.Unsigned.to_uint_nonnil p).
Qed.

(** C5, as the code has it.  [randomSerialNumber] reads sixteen bytes of
    the random source and returns them as a big-endian number; reading
    blocks of sixteen bytes as numbers is one-to-one onto [[0, 2^128)],
    so that uniform bytes give a uniform serial; every serial it returns,
    and every serial stored in a record that [GenerateCertificate]
    returns, is at least 0 and below [2^128].  Zero is not excluded. *)
Theorem serial_is_uniform_below_2_128 `{Library} :
  (forall r : Reader,
     (16 <= List.length r)%nat ->
     randomSerialNumber r = (Ok (big.SetBytes (firstn 16 r)), skipn 16 r)) /\
  (forall n : Z,
     0 <= n < 2 ^ 128 ->
     exists buf,
       List.length buf = 16%nat /\ big.SetBytes buf = n /\
       forall buf',
         List.length buf' = 16%nat -> big.SetBytes buf' = n -> buf' = buf) /\
  (forall (r r' : Reader) (n : Z),
     randomSerialNumber r = (Ok n, r') -> 0 <= n < 2 ^ 128) /\
  (forall request issuer r cert r',
     GenerateCertificate request issuer r = (Ok cert, r') ->
     exists n,
       serialNumber (Certificate.Serial cert) = Some n /\ 0 <= n < 2 ^ 128).
Proof.
  assert (Hrange : forall (r r' : Reader) (n : Z),
             randomSerialNumber r = (Ok n, r') -> 0 <= n < 2 ^ 128).
  { intros r r' n Hn. unfold randomSerialNumber in Hn.
    apply rand_Int_range in Hn. exact Hn. }
  split; [exact randomSerialNumber_draw |].
  split; [| split; [exact Hrange |]].
  - intros n Hn. exists (toBytes 16 n).
    split; [apply toBytes_length |].
    split; [apply SetBytes_toBytes; exact Hn |].
    intros buf' Hlen Hval.
    rewrite <- (toBytes_SetBytes buf'), Hlen, Hval. reflexivity.
  - intros request issuer r cert r' Hrun.
    apply GenerateCertificate_Ok in Hrun. destruct Hrun as [tpl Hsigned].
    destruct Hsigned as [? ? serial ? ? ? ? ? ? ? ? _ Hserial _ _ _ _ _].
    exists serial. simpl. split; [apply serialNumber_String |].
    eapply Hrange; exact Hserial.
Qed.

(** An instance of C5: sixteen bytes 255 give the largest serial. *)
Lemma serial_is_uniform_below_2_128_witness :
  randomSerialNumber (repeat xff 16) = (Ok (2 ^ 128 - 1), []) /\
  exists cert r' n,
    GenerateCertificate (L := Demo.library)
      (Demo.request [] Demo.noUsage false) None Demo.tape = (Ok cert, r') /\
    serialNumber (Certificate.Serial cert) = Some n /\ 0 <= n < 2 ^ 128.
Proof.
  destruct (serial_is_uniform_below_2_128 (H := Demo.library))
    as (Hdraw & _ & _ & Hstored).
  split.
  - rewrite (Hdraw (repeat xff 16)) by (simpl; lia). reflexivity.
  - destruct (Hstored (Demo.request [] Demo.noUsage false) None Demo.tape
                _ [] eq_refl) as (n & Hn & Hr).
    eexists. exists []. exists n.
    split; [vm_compute; reflexivity |].
    split; [exact Hn | exact Hr].
Defined.

(** C5, the claim refuted.  Sixteen zero bytes from the random source
    give the serial 0: the record stores the text of 0, which is not a
    positive integer. *)
Lemma serial_can_be_zero :
  randomSerialNumber (repeat x00 16) = (Ok 0, []) /\
  exists cert r',
    GenerateCertificate (L := Demo.library)
      (Demo.request [] Demo.noUsage false) None Demo.zeroTape = (Ok cert, r') /\
    Certificate.Serial cert = "0" /\
    serialNumber (Certificate.Serial cert) = Some 0 /\
    ~ 0 < 0.
Proof.
  split; [vm_compute; reflexivity |].
  eexists. eexists. split; [vm_compute; reflexivity |].
  split; [reflexivity |]. split; [reflexivity | lia].
Qed.

(** * Further properties of the code *)

(** ** The basic key usages *)

Lemma testbit_orIf (flag : bool) (k : Z) (usage i : Z) :
  0 <= k ->
  Z.testbit (KeyUsage.orIf flag (Z.shiftl 1 k) usage) i
  = Z.testbit usage i || (flag && (k =? i)).
Proof.
  intros Hk. unfold KeyUsage.orIf. destruct flag; simpl.
  - rewrite Z.lor_spec, Z.shiftl_1_l, Z.pow2_bits_eqb by exact Hk.
    reflexivity.
  - now rewrite orb_false_r.
Qed.

Lemma usage_testbit (u : KeyUsage.t) (i : Z) :
  Z.testbit (KeyUsage.usage u) i = basicFlag u i.
Proof.
  revert i.
  intros i. unfold KeyUsage.usage.
  unfold x509.KeyUsageDigitalSignature, x509.KeyUsageContentCommitment,
    x509.KeyUsageKeyEncipherment, x509.KeyUsageDataEncipherment,
    x509.KeyUsageKeyAgreement, x509.KeyUsageCertSign, x509.KeyUsageCRLSign,
    x509.KeyUsageEncipherOnly, x509.KeyUsageDecipherOnly.
  cbv zeta. rewrite !testbit_orIf by lia. rewrite Z.bits_0.
  destruct u as [b0 b1 b2 b3 b4 b5 b6 b7 b8 s c cs ep ts os].
  cbn [KeyUsage.DigitalSignature KeyUsage.ContentCommitment
       KeyUsage.KeyEncipherment KeyUsage.DataEncipherment
       KeyUsage.KeyAgreement KeyUsage.CertSign KeyUsage.CRLSign
       KeyUsage.EncipherOnly KeyUsage.DecipherOnly].
  assert (Hcase : i = 0 \/ i = 1 \/ i = 2 \/ i = 3 \/ i = 4 \/ i = 5 \/
                  i = 6 \/ i = 7 \/ i = 8 \/ (i < 0 \/ 8 < i)) by lia.
  destruct Hcase as
    [-> | [-> | [-> | [-> | [-> | [-> | [-> | [-> | [-> | Hout]]]]]]]]];
    try (cbn; destruct b0, b1, b2, b3, b4, b5, b6, b7, b8; reflexivity).
  replace (0 =? i) with false by (symmetry; apply Z.eqb_neq; lia).
  replace (1 =? i) with false by (symmetry; apply Z.eqb_neq; lia).
  replace (2 =? i) with false by (symmetry; apply Z.eqb_neq; lia).
  replace (3 =? i) with false by (symmetry; apply Z.eqb_neq; lia).
  replace (4 =? i) with false by (symmetry; apply Z.eqb_neq; lia).
  replace (5 =? i) with false by (symmetry; apply Z.eqb_neq; lia).
  replace (6 =? i) with false by (symmetry; apply Z.eqb_neq; lia).
  replace (7 =? i) with false by (symmetry; apply Z.eqb_neq; lia).
  replace (8 =? i) with false by (symmetry; apply Z.eqb_neq; lia).
  rewrite !andb_false_r. simpl.
  unfold basicFlag.
  destruct i as [| p | p]; try reflexivity; try lia.
  do 4 (destruct p as [p | p |]; try reflexivity; try lia).
Qed.

(** X1.  [usage] sets bit [i] of the mask exactly when the basic flag
    that stands for bit [i] is true, for the nine bits 0 to 8, and sets no
    other bit; the mask lies in [[0, 512)]. *)
Theorem usage_bits (u : KeyUsage.t) :
  (forall i : Z, Z.testbit (KeyUsage.usage u) i = basicFlag u i) /\
  0 <= KeyUsage.usage u < 512.
Proof.
  split.
  - exact (usage_testbit u).
  - destruct u as [b0 b1 b2 b3 b4 b5 b6 b7 b8 s c cs ep ts os].
    destruct b0, b1, b2, b3, b4, b5, b6, b7, b8; vm_compute; split; congruence.
Qed.

(** X2.  Two key usages have the same mask exactly when their nine basic
    flags agree: the mask loses no basic flag and does not depend on the
    extended flags. *)
Theorem usage_determines_basic_flags (u v : KeyUsage.t) :
  KeyUsage.usage u = KeyUsage.usage v <-> basicFlags u = basicFlags v.
Proof.
  split.
  - intros Heq.
    assert (Hbit : forall i, basicFlag u i = basicFlag v i)
      by (intros i; now rewrite <- !usage_testbit, Heq).
    unfold basicFlags.
    pose proof (Hbit 0) as H0. pose proof (Hbit 1) as H1.
    pose proof (Hbit 2) as H2. pose proof (Hbit 3) as H3.
    pose proof (Hbit 4) as H4. pose proof (Hbit 5) as H5.
    pose proof (Hbit 6) as H6. pose proof (Hbit 7) as H7.
    pose proof (Hbit 8) as H8.
    cbn [basicFlag] in H0, H1, H2, H3, H4, H5, H6, H7, H8.
    congruence.
  - intros Heq.
    destruct u as [b0 b1 b2 b3 b4 b5 b6 b7 b8 s c cs ep ts os].
    destruct v as [c0 c1 c2 c3 c4 c5 c6 c7 c8 s' c' cs' ep' ts' os'].
    unfold basicFlags in Heq; simpl in Heq.
    injection Heq as -> -> -> -> -> -> -> -> ->. reflexivity.
Qed.

(** ** The date range *)

(** X3.  [IsValid] reads the clock twice.  It is true exactly when the
    first reading is strictly before [NotAfter] and the second reading is
    strictly after [NotBefore], however far apart the times are.  When
    both readings are the same instant, this is: strictly inside the
    range.  A range whose end is not after its start is valid only if the
    clock moves forward between the two readings. *)
Theorem IsValid_two_readings (now1 now2 : Z) (d : DateRange.t) :
  (DateRange.IsValid now1 now2 d = true
   <-> now1 < DateRange.NotAfter d /\ DateRange.NotBefore d < now2) /\
  (now1 = now2 ->
   (DateRange.IsValid now1 now2 d = true
    <-> DateRange.NotBefore d < now1 < DateRange.NotAfter d)) /\
  (DateRange.NotAfter d <= DateRange.NotBefore d ->
   now2 <= now1 ->
   DateRange.IsValid now1 now2 d = false).
Proof.
  assert (Hiff : DateRange.IsValid now1 now2 d = true
                 <-> now1 < DateRange.NotAfter d /\
                     DateRange.NotBefore d < now2).
  { unfold DateRange.IsValid, time.Since, time.Sub,
      time.minDuration, time.maxDuration.
    rewrite andb_true_iff, Z.ltb_lt, Z.gtb_lt.
    destruct (Z.ltb_spec (now1 - DateRange.NotAfter d) (- 2 ^ 63));
      destruct (Z.ltb_spec (2 ^ 63 - 1) (now1 - DateRange.NotAfter d));
      destruct (Z.ltb_spec (now2 - DateRange.NotBefore d) (- 2 ^ 63));
      destruct (Z.ltb_spec (2 ^ 63 - 1) (now2 - DateRange.NotBefore d));
      lia. }
  split; [exact Hiff |]. split.
  - intros <-. rewrite Hiff. lia.
  - intros Hle Hclock. apply not_true_is_false. intros Hv.
    apply Hiff in Hv. lia.
Qed.

(** An instance of X3: the empty range from 100 to 100 is not valid
    when the clock stands at 100, and is valid when the clock reads 99
    and then 101. *)
Lemma IsValid_two_readings_witness :
  DateRange.IsValid 100 100
    {| DateRange.NotBefore := 100; DateRange.NotAfter := 100 |} = false /\
  DateRange.IsValid 99 101
    {| DateRange.NotBefore := 100; DateRange.NotAfter := 100 |} = true.
Proof.
  split.
  - apply (proj2 (proj2 (IsValid_two_readings 100 100
                           {| DateRange.NotBefore := 100;
                              DateRange.NotAfter := 100 |})));
      simpl; lia.
  - apply (proj1 (IsValid_two_readings 99 101
                    {| DateRange.NotBefore := 100;
                       DateRange.NotAfter := 100 |})).
    simpl. lia.
Defined.

(** ** What the signed template takes from the request *)

Section TemplateFacts.

Context {L : Library}.

Lemma setIssuer_kept tpl issuer tpl' :
  setIssuer tpl issuer = Ok tpl' ->
  requestFields tpl' = requestFields tpl /\ statusLists tpl' = statusLists tpl.
Proof.
  unfold setIssuer. destruct issuer as [i |].
  - intros H. apply obind_Ok in H. destruct H as (x & _ & H).
    inversion H; split; reflexivity.
  - intros H. inversion H; split; reflexivity.
Qed.

Lemma addAlternateName_kept tpl name tpl' :
  addAlternateName tpl name = Ok tpl' ->
  requestFields tpl' = requestFields tpl /\ statusLists tpl' = statusLists tpl.
Proof.
  unfold addAlternateName.
  repeat match goal with
         | |- context [if ?b then _ else _] => destruct b
         | |- context [match ?x with _ => _ end] => destruct x
         end;
    intros H; inversion H; split; reflexivity.
Qed.

Lemma addAlternateNames_kept names : forall tpl tpl',
  addAlternateNames tpl names = Ok tpl' ->
  requestFields tpl' = requestFields tpl /\ statusLists tpl' = statusLists tpl.
Proof.
  induction names as [| name rest IH]; simpl; intros tpl tpl' H.
  - inversion H; split; reflexivity.
  - apply obind_Ok in H. destruct H as (tpl1 & H1 & H).
    destruct (IH _ _ H) as [Hr Hs].
    destruct (addAlternateName_kept _ _ H1) as [Hr1 Hs1].
    split; congruence.
Qed.

Lemma setStatusProviders_set tpl p :
  requestFields (setStatusProviders tpl p) = requestFields tpl /\
  (statusLists tpl = ([], []) ->
   statusLists (setStatusProviders tpl p)
   = (optionList (StatusProviders.CRL p), optionList (StatusProviders.OCSP p))).
Proof.
  unfold setStatusProviders, statusLists.
  destruct (StatusProviders.CRL p), (StatusProviders.OCSP p); simpl;
    (split; [reflexivity | intros H; injection H as Hc Ho; congruence]).
Qed.

Lemma template_fields request issuer serial h tpl :
  template request issuer serial h = Ok tpl ->
  requestFields tpl
  = (serial, Name.pkix (CertificateRequest.Subject request),
     DateRange.NotBefore (CertificateRequest.Validity request),
     DateRange.NotAfter (CertificateRequest.Validity request),
     KeyUsage.usage (CertificateRequest.Usage request), h) /\
  statusLists tpl
  = (optionList (StatusProviders.CRL (CertificateRequest.StatusProviders request)),
     optionList (StatusProviders.OCSP (CertificateRequest.StatusProviders request))).
Proof.
  intros Htpl. apply template_Ok in Htpl.
  destruct Htpl as (tpl0 & tpl1 & Hissuer & Hloop & ->).
  destruct (setIssuer_kept _ _ Hissuer) as [Hr0 Hs0].
  destruct (addAlternateNames_kept _ _ Hloop) as [Hr1 Hs1].
  destruct (setStatusProviders_set tpl1
              (CertificateRequest.StatusProviders request)) as [Hr2 Hs2].
  split.
  - rewrite Hr2, Hr1, Hr0. reflexivity.
  - apply Hs2. rewrite Hs1, Hs0. reflexivity.
Qed.

Lemma addAlternateNames_Issuer names : forall tpl tpl',
  addAlternateNames tpl names = Ok tpl' -> x509.Issuer tpl' = x509.Issuer tpl.
Proof.
  induction names as [| name rest IH]; simpl; intros tpl tpl' Hl.
  - inversion Hl; reflexivity.
  - apply obind_Ok in Hl. destruct Hl as (t1 & H1 & Hl).
    rewrite (IH _ _ Hl). unfold addAlternateName in H1.
    repeat match type of H1 with
           | context [if ?b then _ else _] => destruct b
           | context [match ?x with _ => _ end] => destruct x
           end; inversion H1; reflexivity.
Qed.

(** The issuer name of the template: empty without an issuer, the
    subject of the decoded issuer certificate otherwise. *)
Lemma template_Issuer request issuer serial h tpl :
  template request issuer serial h = Ok tpl ->
  match issuer with
  | None => x509.Issuer tpl = pkix.zero
  | Some i =>
      exists x, Certificate.x509 i = Ok x /\ x509.Issuer tpl = x509.Subject x
  end.
Proof.
  intros Htpl. apply template_Ok in Htpl.
  destruct Htpl as (tpl0 & tpl1 & Hissuer & Hloop & ->).
  assert (Hsp : x509.Issuer
                  (setStatusProviders tpl1
                     (CertificateRequest.StatusProviders request))
                = x509.Issuer tpl1).
  { unfold setStatusProviders.
    destruct (StatusProviders.CRL _), (StatusProviders.OCSP _); reflexivity. }
  rewrite Hsp, (addAlternateNames_Issuer _ _ Hloop).
  unfold setIssuer in Hissuer. destruct issuer as [i |].
  - apply obind_Ok in Hissuer. destruct Hissuer as (x & Hx & Hissuer).
    inversion Hissuer; subst. exists x. split; [exact Hx | reflexivity].
  - inversion Hissuer; subst. reflexivity.
Qed.

End TemplateFacts.

(** X4.  In every certificate that is returned, the signed template has
    the subject of the request in its [pkix] form, which decodes to the
    subject stored in the record, the two ends of the request's validity,
    and the mask of the request's basic key usages. *)
Theorem signed_template_copies_request `{Library}
    (request : CertificateRequest.t) (issuer : option Certificate.t)
    (r r' : Reader) (cert : Certificate.t) :
  GenerateCertificate request issuer r = (Ok cert, r') ->
  exists tpl,
    signedFrom request issuer r cert r' tpl /\
    x509.Subject tpl = Name.pkix (CertificateRequest.Subject request) /\
    nameFromPkix (x509.Subject tpl) = Certificate.Subject cert /\
    Certificate.Subject cert = CertificateRequest.Subject request /\
    x509.NotBefore tpl
    = DateRange.NotBefore (CertificateRequest.Validity request) /\
    x509.NotAfter tpl
    = DateRange.NotAfter (CertificateRequest.Validity request) /\
    x509.KeyUsage_ tpl = KeyUsage.usage (CertificateRequest.Usage request).
Proof.
  intros Hrun. apply GenerateCertificate_Ok in Hrun.
  destruct Hrun as [tpl Hsigned]. exists tpl. split; [exact Hsigned |].
  destruct Hsigned as [? ? ? ? ? ? ? ? ? ? ? _ _ _ _ Htpl _ _].
  apply template_fields in Htpl. destruct Htpl as [Hr _].
  unfold requestFields in Hr. injection Hr as _ Hsubj Hnb Hna Hku _.
  simpl. rewrite Hsubj.
  repeat split; try assumption.
  destruct (CertificateRequest.Subject request); reflexivity.
Qed.

(** An instance of X4. *)
Lemma signed_template_copies_request_witness :
  exists cert r' (tpl : @Template Demo.library),
    GenerateCertificate (L := Demo.library)
      (Demo.request [] Demo.serverClient false) None Demo.tape = (Ok cert, r') /\
    x509.Subject tpl = Name.pkix Demo.subject /\
    Certificate.Subject cert = Demo.subject /\
    x509.NotBefore tpl = 1700000000 /\
    x509.NotAfter tpl = 1800000000 /\
    x509.KeyUsage_ tpl = 5.
Proof.
  destruct (signed_template_copies_request
              (H := Demo.library)
              (Demo.request [] Demo.serverClient false) None Demo.tape
              (r' := []) eq_refl)
    as (tpl & _ & Hs & _ & Hc & Hnb & Hna & Hku).
  eexists. exists []. exists tpl.
  split; [vm_compute; reflexivity |].
  split; [exact Hs |]. split; [exact Hc |]. split; [exact Hnb |].
  split; [exact Hna | exact Hku].
Defined.

(** X5.  In every certificate that is returned, the serial stored in
    the record, read as a decimal number, is the serial number of the
    signed template; the subject key identifier of the template is the
    hash of the encoded public key of the private key whose PKCS#8
    encoding the record stores in [KeyData]. *)
Theorem record_and_template_share_serial_and_key `{Library}
    (request : CertificateRequest.t) (issuer : option Certificate.t)
    (r r' : Reader) (cert : Certificate.t) :
  GenerateCertificate request issuer r = (Ok cert, r') ->
  exists tpl pKey pKeyBytes publicKeyBytes,
    signedFrom request issuer r cert r' tpl /\
    serialNumber (Certificate.Serial cert) = Some (x509.SerialNumber tpl) /\
    MarshalPKCS8PrivateKey pKey = inl pKeyBytes /\
    Certificate.KeyData cert = hex.EncodeToString pKeyBytes /\
    MarshalPKIXPublicKey (Public pKey) = inl publicKeyBytes /\
    x509.SubjectKeyId tpl = sha1_Sum publicKeyBytes.
Proof.
  intros Hrun. apply GenerateCertificate_Ok in Hrun.
  destruct Hrun as [tpl Hsigned].
  pose proof Hsigned as Hkeep.
  destruct Hsigned
    as [pKey r1 serial r2 pKeyBytes publicKeyBytes tpl parent key certBytes r'
        _ _ Hkb Hpb Htpl _ _].
  apply template_fields in Htpl. destruct Htpl as [Hr _].
  unfold requestFields in Hr. injection Hr as Hserial _ _ _ _ Hski.
  exists tpl, pKey, pKeyBytes, publicKeyBytes.
  split; [exact Hkeep |]. simpl.
  rewrite Hserial, Hski, serialNumber_String. auto.
Qed.

(** An instance of X5. *)
Lemma record_and_template_share_serial_and_key_witness :
  exists cert r' (tpl : @Template Demo.library),
    GenerateCertificate (L := Demo.library)
      (Demo.request [] Demo.noUsage false) None Demo.tape = (Ok cert, r') /\
    Certificate.Serial cert = "256" /\
    serialNumber (Certificate.Serial cert) = Some (x509.SerialNumber tpl).
Proof.
  destruct (record_and_template_share_serial_and_key
              (H := Demo.library)
              (Demo.request [] Demo.noUsage false) None Demo.tape
              (r' := []) eq_refl)
    as (tpl & _ & _ & _ & _ & Hserial & _).
  eexists. exists []. exists tpl.
  split; [vm_compute; reflexivity |].
  split; [reflexivity | exact Hserial].
Defined.

(** X6.  In every certificate that is returned, the signed template
    lists the CRL address of the request as its only CRL distribution
    point and the OCSP address as its only OCSP server; a missing address
    leaves the list empty. *)
Theorem status_providers_copied `{Library}
    (request : CertificateRequest.t) (issuer : option Certificate.t)
    (r r' : Reader) (cert : Certificate.t) :
  GenerateCertificate request issuer r = (Ok cert, r') ->
  exists tpl,
    signedFrom request issuer r cert r' tpl /\
    x509.CRLDistributionPoints tpl
    = optionList (StatusProviders.CRL
                    (CertificateRequest.StatusProviders request)) /\
    x509.OCSPServer tpl
    = optionList (StatusProviders.OCSP
                    (CertificateRequest.StatusProviders request)).
Proof.
  intros Hrun. apply GenerateCertificate_Ok in Hrun.
  destruct Hrun as [tpl Hsigned]. exists tpl. split; [exact Hsigned |].
  destruct Hsigned as [? ? ? ? ? ? ? ? ? ? ? _ _ _ _ Htpl _ _].
  apply template_fields in Htpl. destruct Htpl as [_ Hs].
  unfold statusLists in Hs. injection Hs as Hc Ho. split; assumption.
Qed.

(** An instance of X6: a CRL address and no OCSP address. *)
Lemma status_providers_copied_witness :
  exists cert r' (tpl : @Template Demo.library),
    GenerateCertificate (L := Demo.library) requestWithCRL None Demo.tape
    = (Ok cert, r') /\
    x509.CRLDistributionPoints tpl = ["http://crl.example/root.crl"] /\
    x509.OCSPServer tpl = [].
Proof.
  destruct (status_providers_copied
              (H := Demo.library) requestWithCRL None Demo.tape
              (r' := []) eq_refl) as (tpl & _ & Hc & Ho).
  eexists. exists []. exists tpl.
  split; [vm_compute; reflexivity |]. split; [exact Hc | exact Ho].
Defined.

(** ** Issued records and the accessors *)

(** X7.  The hex fields of a returned record decode without error to
    the bytes the library produced: [CertificateData] to the signed
    certificate, [KeyData] to the PKCS#8 encoding of the fresh key.  The
    accessors on such a record therefore hand these bytes to the parsers,
    and can only panic if a parser refuses them. *)
Theorem issued_record_decodes_to_library_bytes `{Library}
    (request : CertificateRequest.t) (issuer : option Certificate.t)
    (r r' : Reader) (cert : Certificate.t) :
  GenerateCertificate request issuer r = (Ok cert, r') ->
  exists tpl parent pKey key r2 pKeyBytes certBytes,
    MarshalPKCS8PrivateKey pKey = inl pKeyBytes /\
    CreateCertificate tpl parent (Public pKey) key r2 = (inl certBytes, r') /\
    Certificate.certificateDataBytes cert = Ok certBytes /\
    Certificate.keyDataBytes cert = Ok pKeyBytes /\
    Certificate.x509 cert = must (ParseCertificate certBytes) /\
    Certificate.pKey cert = must (ParsePKCS8PrivateKey pKeyBytes).
Proof.
  intros Hrun. apply GenerateCertificate_Ok in Hrun.
  destruct Hrun as [tpl Hsigned].
  destruct Hsigned
    as [pKey r1 serial r2 pKeyBytes publicKeyBytes tpl parent key certBytes r'
        _ _ Hkb _ _ _ Hcreate].
  exists tpl, parent, pKey, key, r2, pKeyBytes, certBytes.
  unfold Certificate.x509, Certificate.pKey,
    Certificate.certificateDataBytes, Certificate.keyDataBytes.
  simpl. rewrite !DecodeString_EncodeToString. simpl. auto 10.
Qed.

(** An instance of X7: the record decodes and parses. *)
Lemma issued_record_decodes_to_library_bytes_witness :
  exists cert r',
    GenerateCertificate (L := Demo.library)
      (Demo.request [] Demo.noUsage false) None Demo.tape = (Ok cert, r') /\
    Certificate.keyDataBytes cert = Ok [x01; x02; x03; x04] /\
    returns (Certificate.x509 (L := Demo.library) cert) = true /\
    Certificate.pKey (L := Demo.library) cert = Ok [x01; x02; x03; x04].
Proof.
  destruct (issued_record_decodes_to_library_bytes
              (H := Demo.library)
              (Demo.request [] Demo.noUsage false) None Demo.tape
              (r' := []) eq_refl)
    as (tpl & parent & pKey & key & r2 & pKeyBytes & certBytes & _).
  eexists. exists []. split; [vm_compute; reflexivity |].
  repeat split; reflexivity.
Defined.

(** X8.  How the signing step is fed.  Without an issuer the template
    is its own parent, its issuer name is left empty, and the signing key
    is the fresh key stored in the record.  With an issuer the parent is
    the certificate decoded from the issuer record, the signing key is
    the key decoded from it, and the issuer name of the template is the
    subject of that certificate. *)
Theorem signing_step_inputs `{Library}
    (request : CertificateRequest.t) (issuer : option Certificate.t)
    (r r' : Reader) (cert : Certificate.t) :
  GenerateCertificate request issuer r = (Ok cert, r') ->
  exists tpl parent pKey key r2 certBytes,
    CreateCertificate tpl parent (Public pKey) key r2 = (inl certBytes, r') /\
    Certificate.CertificateData cert = hex.EncodeToString certBytes /\
    (exists pKeyBytes,
       MarshalPKCS8PrivateKey pKey = inl pKeyBytes /\
       Certificate.KeyData cert = hex.EncodeToString pKeyBytes) /\
    match issuer with
    | None =>
        parent = tpl /\ key = pKey /\ x509.Issuer tpl = pkix.zero
    | Some i =>
        Certificate.x509 i = Ok parent /\
        Certificate.pKey i = Ok key /\
        x509.Issuer tpl = x509.Subject parent
    end.
Proof.
  intros Hrun. apply GenerateCertificate_Ok in Hrun.
  destruct Hrun as [tpl Hsigned].
  destruct Hsigned
    as [pKey r1 serial r2 pKeyBytes publicKeyBytes tpl parent key certBytes r'
        _ _ Hkb _ Htpl Hsigner Hcreate].
  exists tpl, parent, pKey, key, r2, certBytes.
  split; [exact Hcreate |]. split; [reflexivity |].
  split; [exists pKeyBytes; split; [exact Hkb | reflexivity] |].
  apply template_Issuer in Htpl.
  unfold signer in Hsigner. destruct issuer as [i |].
  - destruct Htpl as (x & Hx & Hissuer).
    rewrite Hx in Hsigner. simpl in Hsigner.
    apply obind_Ok in Hsigner. destruct Hsigner as (k & Hk & Hsigner).
    inversion Hsigner; subst. auto.
  - inversion Hsigner; subst. auto.
Qed.

(** An instance of X8: a certificate signed by the stored root. *)
Lemma signing_step_inputs_witness :
  exists cert r' (tpl parent : @Template Demo.library),
    GenerateCertificate (L := Demo.library)
      (Demo.request [] Demo.noUsage false) (Some Demo.root) Demo.tape
    = (Ok cert, r') /\
    Certificate.x509 (L := Demo.library) Demo.root = Ok parent /\
    x509.Issuer tpl = x509.Subject parent /\
    pkix.CommonName (x509.Subject parent) = "root".
Proof.
  destruct (signing_step_inputs
              (H := Demo.library)
              (Demo.request [] Demo.noUsage false) (Some Demo.root) Demo.tape
              (r' := []) eq_refl)
    as (tpl & parent & pKey & key & r2 & certBytes & _ & _ & _ &
        Hx & _ & Hissuer).
  eexists. exists []. exists tpl, parent.
  split; [vm_compute; reflexivity |].
  split; [exact Hx |]. split; [exact Hissuer |].
  vm_compute in Hx. injection Hx as <-. reflexivity.
Defined.

(** ** Panics *)

Lemma bind_Panic {A B} (m : M A) (k : A -> M B) (r r' : Reader) (e : error) :
  bind m k r = (Panic e, r') ->
  m r = (Panic e, r') \/
  exists a r1, m r = (Ok a, r1) /\ k a r1 = (Panic e, r').
Proof.
  unfold bind. destruct (m r) as [[a | e0 | e0] r1]; intros H.
  - right. exists a, r1. split; [reflexivity | exact H].
  - discriminate.
  - left. inversion H; subst. reflexivity.
Qed.

Lemma randomSerialNumber_loop (r : Reader) :
  randomSerialNumber r
  = match rand.IntLoop (S (List.length r)) 16 8 (2 ^ 128) r with
    | (inl n, r') => (Ok n, r')
    | (inr e, r') => (Err e, r')
    end.
Proof. reflexivity. Qed.

Lemma randomSerialNumber_no_panic (r r' : Reader) (e : error) :
  randomSerialNumber r <> (Panic e, r').
Proof.
  rewrite randomSerialNumber_loop.
  destruct (rand.IntLoop _ _ _ _ _) as [[n | e0] r1]; discriminate.
Qed.

Section PanicFacts.

Context {L : Library}.

Lemma generateKey_no_panic (r r' : Reader) (e : error) :
  generateKey r <> (Panic e, r').
Proof.
  unfold generateKey.
  destruct (ecdsa_GenerateKey r) as [[k | e0] r1]; simpl; discriminate.
Qed.

Lemma addAlternateNames_no_panic names : forall tpl e,
  addAlternateNames tpl names <> Panic e.
Proof.
  induction names as [| name rest IH]; simpl; intros tpl e.
  - discriminate.
  - destruct (addAlternateName_cases tpl name) as [[tpl' Hok] | [e0 [Herr _]]].
    + rewrite Hok. simpl. apply IH.
    + rewrite Herr. discriminate.
Qed.

Lemma template_Panic request issuer serial h e :
  template request issuer serial h = Panic e ->
  exists i, issuer = Some i /\ Certificate.x509 i = Panic e.
Proof.
  unfold template, setIssuer. destruct issuer as [i |]; simpl.
  - destruct (Certificate.x509 i) as [x | e0 | e0] eqn:Hx; simpl.
    + intros H.
      destruct (addAlternateNames _ _) as [t | e1 | e1] eqn:Hl;
        simpl in H; try discriminate.
      exfalso. eapply addAlternateNames_no_panic; exact Hl.
    + discriminate.
    + intros H. inversion H; subst. exists i. auto.
  - intros H.
    destruct (addAlternateNames _ _) as [t | e1 | e1] eqn:Hl;
      simpl in H; try discriminate.
    exfalso. eapply addAlternateNames_no_panic; exact Hl.
Qed.

Lemma sign_Panic tpl issuer pub pKey r e r' :
  sign tpl issuer pub pKey r = (Panic e, r') ->
  exists i, issuer = Some i /\
            (Certificate.x509 i = Panic e \/ Certificate.pKey i = Panic e).
Proof.
  unfold sign. destruct issuer as [i |].
  - unfold bind, pure.
    destruct (Certificate.x509 i) as [x | e0 | e0] eqn:Hx.
    + destruct (Certificate.pKey i) as [k | e1 | e1] eqn:Hk.
      * destruct (CreateCertificate tpl x pub k r) as [[b | e2] r1];
          simpl; discriminate.
      * discriminate.
      * intros H. inversion H; subst. exists i. auto.
    + discriminate.
    + intros H. inversion H; subst. exists i. auto.
  - destruct (CreateCertificate tpl tpl pub pKey r) as [[b | e2] r1];
      simpl; discriminate.
Qed.

Lemma corrupt_panics {A} (parse : bytes -> result A) (data : string) :
  corrupt parse data = true ->
  exists e,
    obind (match hex.DecodeString data with
           | (b, Some err) => Panic err
           | (b, None) => Ok b
           end) (fun b => must (parse b)) = Panic e.
Proof.
  intros Hc. destruct (accessor_panics parse data) as [Hp _].
  cbv zeta in Hp. rewrite Hc in Hp.
  destruct (obind _ _) as [a | e | e]; try discriminate.
  exists e. reflexivity.
Qed.

Lemma template_issuer_panic request i serial h e :
  Certificate.x509 i = Panic e ->
  template request (Some i) serial h = Panic e.
Proof. intros Hx. unfold template, setIssuer. rewrite Hx. reflexivity. Qed.

Lemma sign_key_panic tpl i pub pKey r x e :
  Certificate.x509 i = Ok x ->
  Certificate.pKey i = Panic e ->
  sign tpl (Some i) pub pKey r = (Panic e, r).
Proof.
  intros Hx Hk. unfold sign, bind, pure. rewrite Hx, Hk. reflexivity.
Qed.

End PanicFacts.

(** X9.  [GenerateCertificate] panics only through the issuer record:
    when it panics, an issuer was given and the panic is the one of
    decoding its certificate or its key.  Without an issuer it never
    panics, whatever the request, the random source and the libraries
    return. *)
Theorem panic_only_from_issuer `{Library}
    (request : CertificateRequest.t) (issuer : option Certificate.t)
    (r r' : Reader) (e : error) :
  GenerateCertificate request issuer r = (Panic e, r') ->
  exists i,
    issuer = Some i /\
    (Certificate.x509 i = Panic e \/ Certificate.pKey i = Panic e).
Proof.
  unfold GenerateCertificate. intros Hrun.
  apply bind_Panic in Hrun.
  destruct Hrun as [Hp | (pKey & r1 & _ & Hrun)];
    [exfalso; eapply generateKey_no_panic; exact Hp |].
  apply bind_Panic in Hrun.
  destruct Hrun as [Hp | (serial & r2 & _ & Hrun)];
    [exfalso; eapply randomSerialNumber_no_panic; exact Hp |].
  apply bind_Panic in Hrun.
  destruct Hrun as [Hp | (pKeyBytes & r3 & _ & Hrun)].
  { unfold pure in Hp. destruct (MarshalPKCS8PrivateKey pKey); discriminate Hp. }
  apply bind_Panic in Hrun.
  destruct Hrun as [Hp | (publicKeyBytes & r4 & _ & Hrun)].
  { unfold pure in Hp.
    destruct (MarshalPKIXPublicKey (Public pKey)); discriminate Hp. }
  apply bind_Panic in Hrun.
  destruct Hrun as [Hp | (tpl & r5 & _ & Hrun)].
  { unfold pure in Hp. injection Hp as Htpl Hr.
    apply template_Panic in Htpl. destruct Htpl as (i & Hi & Hx).
    exists i. split; [exact Hi | left; exact Hx]. }
  apply bind_Panic in Hrun.
  destruct Hrun as [Hp | (certBytes & r6 & _ & Hrun)].
  { eapply sign_Panic; exact Hp. }
  discriminate.
Qed.

(** An instance of X9: the issuer record has lost a character. *)
Lemma panic_only_from_issuer_witness :
  GenerateCertificate (L := Demo.library)
    (Demo.request [] Demo.noUsage false) (Some Demo.truncated) Demo.tape
  = (Panic ErrLength, []) /\
  exists i,
    Some Demo.truncated = Some i /\
    (Certificate.x509 (L := Demo.library) i = Panic ErrLength \/
     Certificate.pKey (L := Demo.library) i = Panic ErrLength).
Proof.
  split; [vm_compute; reflexivity |].
  apply (panic_only_from_issuer
           (H := Demo.library)
           (Demo.request [] Demo.noUsage false) (Some Demo.truncated) Demo.tape
           (r' := [])).
  vm_compute. reflexivity.
Defined.

(** X10.  The order of the failures of an issuer.  When the key
    material has been made and the certificate of the issuer record is
    corrupt, [GenerateCertificate] panics before it looks at the
    alternate names, so that even a request with an invalid alternate
    name panics.  When the certificate of the issuer decodes and only its
    key is corrupt, the panic comes at the signing step, after every
    alternate name has parsed. *)
Theorem corrupt_issuer_panics `{Library}
    (request : CertificateRequest.t) (i : Certificate.t)
    (r r2 : Reader) (pKey : PrivateKey) (serial : Z)
    (pKeyBytes publicKeyBytes : bytes) :
  keyed r pKey serial pKeyBytes publicKeyBytes r2 ->
  (corrupt ParseCertificate (Certificate.CertificateData i) = true ->
   exists e,
     Certificate.x509 i = Panic e /\
     GenerateCertificate request (Some i) r = (Panic e, r2)) /\
  (corrupt ParseCertificate (Certificate.CertificateData i) = false ->
   corrupt ParsePKCS8PrivateKey (Certificate.KeyData i) = true ->
   forallb parses (CertificateRequest.AlternateNames request) = true ->
   exists e,
     Certificate.pKey i = Panic e /\
     GenerateCertificate request (Some i) r = (Panic e, r2)).
Proof.
  intros Hkeyed.
  rewrite (GenerateCertificate_keyed request (Some i) Hkeyed).
  split.
  - intros Hc. apply corrupt_panics in Hc. destruct Hc as [e He].
    change (Certificate.x509 i = Panic e) in He.
    exists e. split; [exact He |].
    unfold bind, pure.
    rewrite template_issuer_panic with (e := e) by exact He. reflexivity.
  - intros Hcert Hkey Hall.
    apply corrupt_panics in Hkey. destruct Hkey as [e He].
    change (Certificate.pKey i = Panic e) in He.
    exists e. split; [exact He |].
    destruct (accessor_panics ParseCertificate (Certificate.CertificateData i))
      as [Hp Hf].
    change (panics (Certificate.x509 i)
            = corrupt ParseCertificate (Certificate.CertificateData i)) in Hp.
    change (fails (Certificate.x509 i) = false) in Hf.
    rewrite Hcert in Hp.
    destruct (Certificate.x509 i) as [x | e0 | e0] eqn:Hx; try discriminate.
    destruct (addAlternateNames_total _
                (set_Issuer (newTemplate request serial (sha1_Sum publicKeyBytes))
                   (x509.Subject x)) Hall) as [tpl1 Hloop].
    assert (Htpl : template request (Some i) serial (sha1_Sum publicKeyBytes)
                   = Ok (setStatusProviders tpl1
                           (CertificateRequest.StatusProviders request))).
    { unfold template, setIssuer. rewrite Hx.
      unfold obind at 2. unfold obind at 1. rewrite Hloop. reflexivity. }
    unfold bind at 1, pure. rewrite Htpl.
    unfold bind.
    rewrite sign_key_panic with (x := x) (e := e) by assumption. reflexivity.
Qed.

(** An instance of X10: an invalid alternate name and an issuer record
    that has lost a character; then an issuer whose key is not hex. *)
Lemma corrupt_issuer_panics_witness :
  GenerateCertificate (L := Demo.library)
    (Demo.request [Demo.alt "ip" "not-an-ip"] Demo.noUsage false)
    (Some Demo.truncated) Demo.tape
  = (Panic ErrLength, []) /\
  GenerateCertificate (L := Demo.library)
    (Demo.request [Demo.alt "ip" "10.0.0.1"] Demo.noUsage false)
    (Some badKeyRecord) Demo.tape
  = (Panic (InvalidByteError "z"), []).
Proof.
  assert (Hkeyed : keyed (L := Demo.library) Demo.tape
                     [x01; x02; x03; x04] 256
                     [x01; x02; x03; x04] [x01; x02; x03; x04] []).
  { eexists. split; [vm_compute; reflexivity |].
    split; [vm_compute; reflexivity |]. split; reflexivity. }
  split.
  - destruct (proj1 (corrupt_issuer_panics
                       (H := Demo.library)
                       (Demo.request [Demo.alt "ip" "not-an-ip"] Demo.noUsage false)
                       Demo.truncated Hkeyed) eq_refl) as (e & He & Hrun).
    rewrite Hrun. vm_compute in He. injection He as <-. reflexivity.
  - destruct (proj2 (corrupt_issuer_panics
                       (H := Demo.library)
                       (Demo.request [Demo.alt "ip" "10.0.0.1"] Demo.noUsage false)
                       badKeyRecord Hkeyed) eq_refl eq_refl eq_refl)
      as (e & He & Hrun).
    rewrite Hrun. vm_compute in He. injection He as <-. reflexivity.
Defined.

(** ** Errors and their order *)

Section ErrorFacts.

Context {L : Library}.

Lemma invalidName_Err tpl name e :
  invalidName name e -> addAlternateName tpl name = Err e.
Proof.
  unfold invalidName, addAlternateName.
  intros [(Hty & Hparse & ->) | (Hty & Hparse)]; rewrite Hty, Hparse;
    reflexivity.
Qed.

Lemma addAlternateNames_first_invalid tpl before bad after e :
  forallb parses before = true ->
  invalidName bad e ->
  addAlternateNames tpl (before ++ bad :: after) = Err e.
Proof.
  intros Hall Hbad. rewrite addAlternateNames_app.
  destruct (addAlternateNames_total _ tpl Hall) as [tpl' Hok].
  rewrite Hok. simpl.
  rewrite invalidName_Err with (e := e) by exact Hbad. reflexivity.
Qed.

End ErrorFacts.

(** X11.  The loop over the alternate names stops at the first entry
    that does not parse: when the steps before the loop succeed and every
    entry before [bad] parses, [GenerateCertificate] returns the error of
    [bad] (the formatted error for an ip entry, the error of [url.Parse]
    for a uri entry), whatever comes after it. *)
Theorem first_invalid_alternate_name_is_reported `{Library}
    (request : CertificateRequest.t) (issuer : option Certificate.t)
    (r r2 : Reader) (before after : list AlternateName.t)
    (bad : AlternateName.t) (e : error) :
  prepared request issuer r r2 ->
  CertificateRequest.AlternateNames request = (before ++ bad :: after)%list ->
  forallb parses before = true ->
  invalidName bad e ->
  GenerateCertificate request issuer r = (Err e, r2).
Proof.
  intros Hprep Hnames Hall Hbad.
  apply prepared_keyed in Hprep.
  destruct Hprep as (pKey & serial & kb & pb & tpl0 & Hkeyed & Hissuer).
  rewrite (GenerateCertificate_keyed request issuer Hkeyed).
  unfold bind, pure, template. rewrite Hissuer, Hnames. simpl.
  rewrite addAlternateNames_first_invalid with (e := e) by assumption.
  reflexivity.
Qed.

(** An instance of X11: a uri entry that is no URL comes before an ip
    entry that is no address; the error is the one of the uri entry. *)
Lemma first_invalid_alternate_name_is_reported_witness :
  GenerateCertificate (L := Demo.library)
    (Demo.request
       [Demo.alt "dns" "a.example"; Demo.alt "uri" notURL;
        Demo.alt "ip" "not-an-ip"] Demo.noUsage false) None Demo.tape
  = (Err (LibraryError "net/url" "invalid control character in URL"), []).
Proof.
  apply (first_invalid_alternate_name_is_reported
           (H := Demo.library)
           (request := Demo.request
                         [Demo.alt "dns" "a.example"; Demo.alt "uri" notURL;
                          Demo.alt "ip" "not-an-ip"] Demo.noUsage false)
           (issuer := None) (r := Demo.tape) (r2 := [])
           (bad := Demo.alt "uri" notURL)
           [Demo.alt "dns" "a.example"] [Demo.alt "ip" "not-an-ip"]).
  - unfold prepared. do 6 eexists.
    split; [vm_compute; reflexivity |].
    split; [vm_compute; reflexivity |].
    split; [reflexivity |]. split; reflexivity.
  - reflexivity.
  - reflexivity.
  - right. split; reflexivity.
Defined.

(** X12.  An error of a library step is returned as it is, without a
    certificate, and the steps after it do not run: the random source is
    left where the failing step left it.  This holds for key generation,
    for the serial, for the two encodings of the key and for signing. *)
Theorem library_errors_are_returned `{Library}
    (request : CertificateRequest.t) (issuer : option Certificate.t)
    (r : Reader) :
  (forall e r1,
     ecdsa_GenerateKey r = (inr e, r1) ->
     GenerateCertificate request issuer r = (Err e, r1)) /\
  (forall pKey r1 e r2,
     generateKey r = (Ok pKey, r1) ->
     randomSerialNumber r1 = (Err e, r2) ->
     GenerateCertificate request issuer r = (Err e, r2)) /\
  (forall pKey r1 serial r2 e,
     generateKey r = (Ok pKey, r1) ->
     randomSerialNumber r1 = (Ok serial, r2) ->
     MarshalPKCS8PrivateKey pKey = inr e ->
     GenerateCertificate request issuer r = (Err e, r2)) /\
  (forall pKey r1 serial r2 pKeyBytes e,
     generateKey r = (Ok pKey, r1) ->
     randomSerialNumber r1 = (Ok serial, r2) ->
     MarshalPKCS8PrivateKey pKey = inl pKeyBytes ->
     MarshalPKIXPublicKey (Public pKey) = inr e ->
     GenerateCertificate request issuer r = (Err e, r2)) /\
  (forall pKey serial pKeyBytes publicKeyBytes r2 tpl parent key e r3,
     keyed r pKey serial pKeyBytes publicKeyBytes r2 ->
     template request issuer serial (sha1_Sum publicKeyBytes) = Ok tpl ->
     signer issuer tpl pKey = Ok (parent, key) ->
     CreateCertificate tpl parent (Public pKey) key r2 = (inr e, r3) ->
     GenerateCertificate request issuer r = (Err e, r3)).
Proof.
  split; [| split; [| split; [| split]]].
  - intros e r1 Hk. unfold GenerateCertificate, bind at 1, generateKey.
    rewrite Hk. reflexivity.
  - intros pKey r1 e r2 Hk Hs. unfold GenerateCertificate, bind at 1 2.
    rewrite Hk, Hs. reflexivity.
  - intros pKey r1 serial r2 e Hk Hs Hm.
    unfold GenerateCertificate, bind at 1 2 3, pure at 1.
    rewrite Hk, Hs, Hm. reflexivity.
  - intros pKey r1 serial r2 pKeyBytes e Hk Hs Hm Hp.
    unfold GenerateCertificate, bind at 1 2 3 4, pure at 1 2.
    rewrite Hk, Hs, Hm, Hp. reflexivity.
  - intros pKey serial pKeyBytes publicKeyBytes r2 tpl parent key e r3
      Hkeyed Htpl Hsigner Hcreate.
    rewrite (GenerateCertificate_keyed request issuer Hkeyed).
    unfold bind at 1, pure. rewrite Htpl. unfold bind.
    unfold signer in Hsigner. unfold sign. destruct issuer as [i |].
    + apply obind_Ok in Hsigner. destruct Hsigner as (x & Hx & Hsigner).
      apply obind_Ok in Hsigner. destruct Hsigner as (k & Hkey & Hsigner).
      inversion Hsigner; subst.
      unfold bind, pure. rewrite Hx, Hkey, Hcreate. reflexivity.
    + inversion Hsigner; subst. rewrite Hcreate. reflexivity.
Qed.

(** An instance of X12: the random source is empty. *)
Lemma library_errors_are_returned_witness :
  GenerateCertificate (L := Demo.library)
    (Demo.request [] Demo.noUsage false) None [] = (Err io.EOF, []).
Proof.
  apply (proj1 (library_errors_are_returned
                  (H := Demo.library)
                  (Demo.request [] Demo.noUsage false) None [])).
  reflexivity.
Defined.

(** ** The random source *)

(** X13.  When the random source holds fewer than sixteen bytes,
    [randomSerialNumber] returns an error and no serial, and the source
    is used up: [io.EOF] when it was empty, [io.ErrUnexpectedEOF]
    otherwise.  It does not panic, on any source. *)
Theorem randomSerialNumber_short_source (r : Reader) :
  ((List.length r < 16)%nat ->
   randomSerialNumber r
   = (Err (match r with [] => io.EOF | _ => io.ErrUnexpectedEOF end), [])) /\
  (forall e r', randomSerialNumber r <> (Panic e, r')).
Proof.
  split.
  - intros Hlen.
    rewrite randomSerialNumber_loop. cbn [rand.IntLoop]. unfold io.ReadFull.
    replace (16 <=? List.length r)%nat with false
      by (symmetry; apply Nat.leb_gt; exact Hlen).
    reflexivity.
  - intros e r'. apply randomSerialNumber_no_panic.
Qed.

(** An instance of X13: three bytes are left. *)
Lemma randomSerialNumber_short_source_witness :
  randomSerialNumber [x01; x02; x03] = (Err io.ErrUnexpectedEOF, []).
Proof.
  apply (proj1 (randomSerialNumber_short_source [x01; x02; x03])).
  simpl. lia.
Defined.

(** X14.  How a successful issuance uses the random source: key
    generation reads first; the serial stored in the record is the next
    sixteen bytes read as a big-endian number; signing gets what is left
    after them. *)
Theorem serial_follows_key_on_tape `{Library}
    (request : CertificateRequest.t) (issuer : option Certificate.t)
    (r r' : Reader) (cert : Certificate.t) :
  GenerateCertificate request issuer r = (Ok cert, r') ->
  exists pKey r1 tpl parent key certBytes,
    ecdsa_GenerateKey r = (inl pKey, r1) /\
    (16 <= List.length r1)%nat /\
    serialNumber (Certificate.Serial cert)
    = Some (big.SetBytes (firstn 16 r1)) /\
    CreateCertificate tpl parent (Public pKey) key (skipn 16 r1)
    = (inl certBytes, r').
Proof.
  intros Hrun. apply GenerateCertificate_Ok in Hrun.
  destruct Hrun as [tpl Hsigned].
  destruct Hsigned
    as [pKey r1 serial r2 pKeyBytes publicKeyBytes tpl parent key certBytes r'
        HpKey Hserial _ _ _ _ Hcreate].
  exists pKey, r1, tpl, parent, key, certBytes.
  assert (Hk : ecdsa_GenerateKey r = (inl pKey, r1)).
  { unfold generateKey in HpKey.
    destruct (ecdsa_GenerateKey r) as [[k | e] r0]; simpl in HpKey;
      inversion HpKey; reflexivity. }
  destruct (Nat.le_gt_cases 16 (List.length r1)) as [Hlen | Hshort].
  - rewrite (randomSerialNumber_draw r1 Hlen) in Hserial.
    inversion Hserial; subst. simpl.
    rewrite serialNumber_String. auto.
  - rewrite randomSerialNumber_loop in Hserial.
    cbn [rand.IntLoop] in Hserial. unfold io.ReadFull in Hserial.
    replace (16 <=? List.length r1)%nat with false in Hserial
      by (symmetry; apply Nat.leb_gt; exact Hshort).
    discriminate.
Qed.

(** An instance of X14: the tape of the examples. *)
Lemma serial_follows_key_on_tape_witness :
  exists cert r',
    GenerateCertificate (L := Demo.library)
      (Demo.request [] Demo.noUsage false) None Demo.tape = (Ok cert, r') /\
    serialNumber (Certificate.Serial cert)
    = Some (big.SetBytes (firstn 16 (skipn 4 Demo.tape))).
Proof.
  destruct (serial_follows_key_on_tape
              (H := Demo.library)
              (Demo.request [] Demo.noUsage false) None Demo.tape
              (r' := []) eq_refl)
    as (pKey & r1 & tpl & parent & key & certBytes & Hk & _ & Hs & _).
  eexists. exists []. split; [vm_compute; reflexivity |].
  vm_compute in Hk. injection Hk as _ <-. exact Hs.
Defined.

(** ** The description of a record *)

(** X15.  [Description] reads the certificate bytes of the record and
    nothing else: it panics exactly when [CertificateData] is corrupt and
    never returns an error; two records with the same [CertificateData]
    have the same description, whatever their stored subject, serial and
    key; and when the certificate parses, the description is, between
    braces and separated by spaces, the first organization, the first
    locality, the first province and the first country of its subject,
    each empty when the subject has none, and its common name. *)
Theorem Description_reads_the_certificate `{Library} (c : Certificate.t) :
  panics (Certificate.Description c)
  = corrupt ParseCertificate (Certificate.CertificateData c) /\
  fails (Certificate.Description c) = false /\
  (forall c',
     Certificate.CertificateData c' = Certificate.CertificateData c ->
     Certificate.Description c' = Certificate.Description c) /\
  (forall x,
     Certificate.x509 c = Ok x ->
     Certificate.Description c
     = Ok ("{" ++ hd "" (pkix.Organization (x509.Subject x)) ++ " " ++
           hd "" (pkix.Locality (x509.Subject x)) ++ " " ++
           hd "" (pkix.Province (x509.Subject x)) ++ " " ++
           hd "" (pkix.Country (x509.Subject x)) ++ " " ++
           pkix.CommonName (x509.Subject x) ++ "}")).
Proof.
  destruct (accessor_panics ParseCertificate (Certificate.CertificateData c))
    as [Hp Hf].
  change (panics (Certificate.x509 c)
          = corrupt ParseCertificate (Certificate.CertificateData c)) in Hp.
  change (fails (Certificate.x509 c) = false) in Hf.
  unfold Certificate.Description.
  split; [| split; [| split]].
  - rewrite <- Hp. destruct (Certificate.x509 c); reflexivity.
  - destruct (Certificate.x509 c); try reflexivity. discriminate Hf.
  - intros c' Hsame.
    unfold Certificate.x509, Certificate.certificateDataBytes.
    rewrite Hsame. reflexivity.
  - intros x Hx. rewrite Hx. simpl.
    unfold Certificate.Sprintf_v, nameFromPkix. simpl.
    rewrite !firstOrEmpty_hd. reflexivity.
Qed.

(** An instance of X15: the stored root, whose certificate carries only
    a common name, and a record with the same certificate and a key that
    is not hex. *)
Lemma Description_reads_the_certificate_witness :
  Certificate.Description (L := Demo.library) Demo.root = Ok "{    root}" /\
  Certificate.Description (L := Demo.library) badKeyRecord
  = Certificate.Description (L := Demo.library) Demo.root.
Proof.
  destruct (Description_reads_the_certificate (H := Demo.library) Demo.root)
    as (_ & _ & Hsame & Hrender).
  split.
  - rewrite (Hrender (Demo.certificateOf "root") eq_refl). reflexivity.
  - apply Hsame. reflexivity.
Defined.

(** ** Two issuances in a row *)

(** X16.  A returned root can be the issuer of the next call.  When a
    self-signed root is issued and then given as the issuer of a second
    request, the second call decodes the root record to the very bytes
    the first call got from the library; the certificate parsed from
    them is the parent of the signing step and gives the issuer name of
    the new template, and the key parsed from them signs.  The root is
    marked as a certificate authority, the second certificate is not. *)
Theorem issued_root_signs_next_certificate `{Library}
    (rootRequest request : CertificateRequest.t)
    (r r1 r2 : Reader) (root cert : Certificate.t) :
  GenerateCertificate rootRequest None r = (Ok root, r1) ->
  GenerateCertificate request (Some root) r1 = (Ok cert, r2) ->
  exists rootKey rootKeyBytes rootTemplate rootBytes r0
         parent key tpl pKey r3 certBytes,
    MarshalPKCS8PrivateKey rootKey = inl rootKeyBytes /\
    CreateCertificate rootTemplate rootTemplate (Public rootKey) rootKey r0
    = (inl rootBytes, r1) /\
    ParseCertificate rootBytes = inl parent /\
    ParsePKCS8PrivateKey rootKeyBytes = inl key /\
    x509.Issuer tpl = x509.Subject parent /\
    CreateCertificate tpl parent (Public pKey) key r3 = (inl certBytes, r2) /\
    Certificate.CertificateData cert = hex.EncodeToString certBytes /\
    Certificate.CertificateAuthority root = true /\
    Certificate.CertificateAuthority cert = false.
Proof.
  intros Hroot Hcert.
  apply GenerateCertificate_Ok in Hroot. destruct Hroot as [rootTemplate Hroot].
  apply GenerateCertificate_Ok in Hcert. destruct Hcert as [tpl Hcert].
  destruct Hroot
    as [rootKey ra serialR r0 rootKeyBytes rootPub rootTemplate parentR keyR
        rootBytes r1 _ _ HkbR _ _ HsignerR HcreateR].
  simpl in HsignerR. inversion HsignerR; subst parentR keyR.
  destruct Hcert
    as [pKey rb serial r3 pKeyBytes publicKeyBytes tpl parent key certBytes r2
        _ _ _ _ Htpl Hsigner Hcreate].
  apply template_Issuer in Htpl. destruct Htpl as (x & Hx & Hissuer).
  unfold signer in Hsigner. rewrite Hx in Hsigner. simpl in Hsigner.
  apply obind_Ok in Hsigner. destruct Hsigner as (k & Hk & Hsigner).
  inversion Hsigner; subst parent key.
  unfold Certificate.x509, Certificate.certificateDataBytes in Hx.
  unfold Certificate.pKey, Certificate.keyDataBytes in Hk.
  simpl in Hx, Hk. rewrite DecodeString_EncodeToString in Hx, Hk.
  simpl in Hx, Hk. apply must_Ok in Hx. apply must_Ok in Hk.
  exists rootKey, rootKeyBytes, rootTemplate, rootBytes, r0,
    x, k, tpl, pKey, r3, certBytes.
  repeat split; assumption || reflexivity.
Qed.

(** An instance of X16: a root, then a certificate signed by it. *)
Lemma issued_root_signs_next_certificate_witness :
  exists root r1 cert r2,
    GenerateCertificate (L := Demo.library)
      (Demo.request [] Demo.noUsage true) None longTape = (Ok root, r1) /\
    GenerateCertificate (L := Demo.library)
      (Demo.request [Demo.alt "dns" "a.example"] Demo.serverClient false)
      (Some root) r1 = (Ok cert, r2) /\
    Certificate.CertificateAuthority root = true /\
    Certificate.CertificateAuthority cert = false.
Proof.
  exists {| Certificate.Serial := "256";
            Certificate.Subject := Demo.subject;
            Certificate.CertificateAuthority := true;
            Certificate.CertificateData := "306c6561662e6578616d706c652e636f6d";
            Certificate.KeyData := "01020304" |}.
  exists Demo.tape.
  exists {| Certificate.Serial := "256";
            Certificate.Subject := Demo.subject;
            Certificate.CertificateAuthority := false;
            Certificate.CertificateData := "306c6561662e6578616d706c652e636f6d";
            Certificate.KeyData := "01020304" |}.
  exists [].
  assert (Hroot : GenerateCertificate (L := Demo.library)
                    (Demo.request [] Demo.noUsage true) None longTape
                  = (Ok {| Certificate.Serial := "256";
                           Certificate.Subject := Demo.subject;
                           Certificate.CertificateAuthority := true;
                           Certificate.CertificateData :=
                             "306c6561662e6578616d706c652e636f6d";
                           Certificate.KeyData := "01020304" |}, Demo.tape))
    by (vm_compute; reflexivity).
  assert (Hcert : GenerateCertificate (L := Demo.library)
                    (Demo.request [Demo.alt "dns" "a.example"]
                       Demo.serverClient false)
                    (Some {| Certificate.Serial := "256";
                             Certificate.Subject := Demo.subject;
                             Certificate.CertificateAuthority := true;
                             Certificate.CertificateData :=
                               "306c6561662e6578616d706c652e636f6d";
                             Certificate.KeyData := "01020304" |}) Demo.tape
                  = (Ok {| Certificate.Serial := "256";
                           Certificate.Subject := Demo.subject;
                           Certificate.CertificateAuthority := false;
                           Certificate.CertificateData :=
                             "306c6561662e6578616d706c652e636f6d";
                           Certificate.KeyData := "01020304" |}, []))
    by (vm_compute; reflexivity).
  split; [exact Hroot |]. split; [exact Hcert |].
  destruct (@issued_root_signs_next_certificate Demo.library
              _ _ _ _ _ _ _ Hroot Hcert)
    as (? & ? & ? & ? & ? & ? & ? & ? & ? & ? & ? &
        _ & _ & _ & _ & _ & _ & _ & Hca & Hleaf).
  split; [exact Hca | exact Hleaf].
Defined.

(** ** What is read of an issuer *)

(** X17.  Of an issuer record only [CertificateData] and [KeyData] are
    read: two issuer records that agree on these two fields give the same
    result, whatever their stored serial, subject and
    certificate-authority mark.  In particular a record that is not
    marked as a certificate authority is accepted as an issuer. *)
Theorem issuer_is_read_through_its_data `{Library}
    (request : CertificateRequest.t) (i i' : Certificate.t) (r : Reader) :
  Certificate.CertificateData i = Certificate.CertificateData i' ->
  Certificate.KeyData i = Certificate.KeyData i' ->
  GenerateCertificate request (Some i) r
  = GenerateCertificate request (Some i') r.
Proof.
  intros Hdata Hkey.
  assert (Hx : Certificate.x509 i = Certificate.x509 i')
    by (unfold Certificate.x509, Certificate.certificateDataBytes;
        now rewrite Hdata).
  assert (Hk : Certificate.pKey i = Certificate.pKey i')
    by (unfold Certificate.pKey, Certificate.keyDataBytes; now rewrite Hkey).
  assert (Htpl : forall serial h,
             template request (Some i) serial h
             = template request (Some i') serial h)
    by (intros serial h; unfold template, setIssuer; now rewrite Hx).
  assert (Hsign : forall tpl pub pKey r0,
             sign tpl (Some i) pub pKey r0 = sign tpl (Some i') pub pKey r0)
    by (intros tpl pub pKey r0; unfold sign; now rewrite Hx, Hk).
  unfold GenerateCertificate, bind.
  destruct (generateKey r) as [[pKey | e | e] r1]; try reflexivity.
  destruct (randomSerialNumber r1) as [[serial | e | e] r2]; try reflexivity.
  destruct (pure (try (MarshalPKCS8PrivateKey pKey)) r2)
    as [[pKeyBytes | e | e] r3]; try reflexivity.
  destruct (pure (try (MarshalPKIXPublicKey (Public pKey))) r3)
    as [[publicKeyBytes | e | e] r4]; try reflexivity.
  rewrite Htpl.
  destruct (pure (template request (Some i') serial (sha1_Sum publicKeyBytes)) r4)
    as [[tpl | e | e] r5]; try reflexivity.
  rewrite Hsign. reflexivity.
Qed.

(** An instance of X17: the stored root and its unmarked copy. *)
Lemma issuer_is_read_through_its_data_witness :
  exists cert,
    GenerateCertificate (L := Demo.library)
      (Demo.request [] Demo.noUsage false) (Some unmarkedRoot) Demo.tape
    = (Ok cert, []) /\
    GenerateCertificate (L := Demo.library)
      (Demo.request [] Demo.noUsage false) (Some Demo.root) Demo.tape
    = (Ok cert, []).
Proof.
  eexists. split.
  - rewrite (issuer_is_read_through_its_data
               (H := Demo.library)
               (Demo.request [] Demo.noUsage false)
               unmarkedRoot Demo.root Demo.tape eq_refl eq_refl).
    vm_compute. reflexivity.
  - vm_compute. reflexivity.
Defined.
